(** * PDF form extract / edit / apply: a shallow embedding of the core pipeline

    The development follows the two revisions of the application source that
    live in the repository:

    - [src/pdf_form_extract_edit_apply_webapp_react_pdf_js_pdf_lib_interact.jsx]
      (module [Current] below), and
    - [src/unnamed/part_000] (module [Earlier] below).

    The helpers [viewportToPdfRectFromViewportRect], [pdfRectToViewportRect],
    [mapPdfJsFieldType] and [flattenWithPdfLib] are textually identical in
    both revisions and are embedded once.  [applyFields] and
    [extractFieldsWithPdfJs] differ between the revisions in their size
    policy for checkbox / radio fields and are embedded once per revision.

    Numbers are JavaScript doubles in the source.  They are embedded as exact
    rationals [Q]: [Math.min], [Math.max] and [Math.abs] are exact on finite
    doubles, and the viewport conversions of pdf.js are kept behind the
    [Viewport] record, as the closures the source calls. *)

From Stdlib Require Import QArith Qminmax Qabs Qfield Lqa ZArith Ascii String List.
From Stdlib Require Import DecimalString DecimalNat Decimal.
From stdpp Require Import gmap strings list.

Open Scope list_scope.

(* ===================================================================== *)
(** * JavaScript values, strings and arrays *)
(* ===================================================================== *)

Module Js.

(** The dynamically typed values that flow through the overlay records:
    annotation attributes of pdf.js are strings or absent, overlay values
    are strings or booleans. *)
Inductive JsValue : Type :=
| JsUndefined
| JsNull
| JsBool (b : bool)
| JsString (s : string).

(** ToBoolean: what [if (v)], [!v], [v || w] test. *)
Definition truthy (v : JsValue) : bool :=
  match v with
  | JsUndefined | JsNull => false
  | JsBool b => b
  | JsString s => negb (String.eqb s "")
  end.

(** [a || b] *)
Definition or_else (a b : JsValue) : JsValue :=
  if truthy a then a else b.

(** [a ?? b]: only [null] and [undefined] are replaced. *)
Definition nullish (a b : JsValue) : JsValue :=
  match a with
  | JsUndefined | JsNull => b
  | _ => a
  end.

(** [String(v)], [("" + v)] and template interpolation of [v]. *)
Definition ToString (v : JsValue) : string :=
  match v with
  | JsUndefined => "undefined"
  | JsNull => "null"
  | JsBool true => "true"
  | JsBool false => "false"
  | JsString s => s
  end.

(** [v === "lit"] for a string literal. *)
Definition strict_eq_str (v : JsValue) (lit : string) : bool :=
  match v with
  | JsString s => String.eqb s lit
  | _ => false
  end.

(** [arr[i]]: [undefined] outside of [0 .. length-1]. *)
Definition index {A : Type} (arr : list A) (i : Z) : option A :=
  if (i <? 0)%Z then None else arr !! Z.to_nat i.

(** Code units are kept in the range U+0000 .. U+00FF, one [ascii] each.
    [String.prototype.toLowerCase] on that range: A-Z and the Latin-1
    capitals U+00C0 .. U+00DE (without the multiplication sign U+00D7)
    move up by 32. *)
Definition lower_unit (c : ascii) : ascii :=
  let n := nat_of_ascii c in
  if ((65 <=? n) && (n <=? 90))%nat then ascii_of_nat (n + 32)
  else if ((192 <=? n) && (n <=? 222) && negb (n =? 215))%nat
       then ascii_of_nat (n + 32)
  else c.

Fixpoint toLowerCase (s : string) : string :=
  match s with
  | EmptyString => EmptyString
  | String c r => String (lower_unit c) (toLowerCase r)
  end.

(** [hay.includes(needle)] *)
Fixpoint includes (needle hay : string) : bool :=
  String.prefix needle hay ||
  match hay with
  | EmptyString => false
  | String _ r => includes needle r
  end.

(** Template interpolation [`${n}`] of a non-negative integer. *)
Definition decimal (n : nat) : string :=
  NilEmpty.string_of_uint (Nat.to_uint n).

End Js.

Import Js.

(* ===================================================================== *)
(** * Core helpers shared by both revisions *)
(* ===================================================================== *)

(** [function mapPdfJsFieldType(t)] *)
Definition mapPdfJsFieldType (t : JsValue) : string :=
  if negb (truthy t) then "text"
  else if strict_eq_str t "Tx" then "text"
  else if strict_eq_str t "Ch" then "dropdown"
  else if strict_eq_str t "Sig" then "text"
  else if strict_eq_str t "Btn" then "checkbox"
  else if includes "radio" (toLowerCase ("" +:+ ToString t)) then "radio"
  else "text".

#[global] Instance JsValue_eq_dec : EqDecision JsValue.
Proof. solve_decision. Defined.

(** The canonicalisation table as the specification words it: the four
    known codes first, then the case-insensitive "radio" test on every
    other code, then the default. *)
Definition canonical_type_table (t : JsValue) : string :=
  if decide (t = JsString "Tx") then "text"
  else if decide (t = JsString "Ch") then "dropdown"
  else if decide (t = JsString "Sig") then "text"
  else if decide (t = JsString "Btn") then "checkbox"
  else if includes "radio" (toLowerCase (ToString t)) then "radio"
  else "text".

(* ===================================================================== *)
(** * Coordinate transform *)
(* ===================================================================== *)

Module Rect.
(** The object literal [{ x, y, width, height }]. *)
Record t : Type := mk { x : Q; y : Q; width : Q; height : Q }.
End Rect.

(** A four element rectangle array [[x1, y1, x2, y2]]. *)
Definition RectArray : Type := (Q * Q * Q * Q)%type.

(** The pdf.js viewport object, reduced to the two methods the source
    calls on it. *)
Record Viewport : Type := {
  convertToPdfPoint : Q -> Q -> Q * Q;
  convertToViewportRectangle : RectArray -> RectArray
}.

(** [function viewportToPdfRectFromViewportRect(vx, vy, vwidth, vheight, viewport)] *)
Definition viewportToPdfRectFromViewportRect
    (vx vy vwidth vheight : Q) (viewport : Viewport) : Rect.t :=
  let '(px1, py1) := convertToPdfPoint viewport vx vy in
  let '(px2, py2) := convertToPdfPoint viewport (vx + vwidth) (vy + vheight) in
  {| Rect.x := Qmin px1 px2;
     Rect.y := Qmin py1 py2;
     Rect.width := Qabs (px2 - px1);
     Rect.height := Qabs (py2 - py1) |}.

(** [function pdfRectToViewportRect(pdfRectArray, viewport)] *)
Definition pdfRectToViewportRect
    (pdfRectArray : RectArray) (viewport : Viewport) : Rect.t :=
  let '(r0, r1, r2, r3) := convertToViewportRectangle viewport pdfRectArray in
  {| Rect.x := Qmin r0 r2;
     Rect.y := Qmin r1 r3;
     Rect.width := Qabs (r2 - r0);
     Rect.height := Qabs (r3 - r1) |}.

(* ===================================================================== *)
(** * The pdf.js side: pages and annotations *)
(* ===================================================================== *)

(** An annotation record as [page.getAnnotations()] yields it. *)
Record Annotation : Type := {
  subtype : JsValue;
  fieldType : JsValue;
  widgetType : JsValue;
  fieldName : JsValue;
  alternativeText : JsValue;
  fieldValue : JsValue;
  rect : RectArray
}.

(** A pdf.js page handle: [page.rotate], [page.getViewport({scale, rotation})]
    and the result of [page.getAnnotations()]. *)
Record PdfJsPage : Type := {
  rotate : Z;
  getViewport : Q -> Z -> Viewport;
  getAnnotations : list Annotation
}.

(** The fixed rendering scale [1.5] of the session. *)
Definition SCALE : Q := 3 # 2.

(* ===================================================================== *)
(** * Field overlays *)
(* ===================================================================== *)

Module Overlay.
Record t : Type := mk {
  id : string;
  pageIndex : Z;
  type : string;
  name : JsValue;
  value : JsValue;
  x : Q;
  y : Q;
  width : Q;
  height : Q
}.
End Overlay.

(* ===================================================================== *)
(** * The pdf-lib side: documents, dictionaries and form fields *)
(* ===================================================================== *)

(** Exceptions. [TypeError] is what the JavaScript runtime raises for a
    property access on [undefined] or a call of a non-function;
    [LibraryError] stands for an error raised inside a library. *)
Inductive Exn : Type :=
| TypeError (msg : string)
| LibraryError (msg : string).

Inductive Result (A : Type) : Type :=
| Ok (a : A)
| Throw (e : Exn).
Arguments Ok {A} a.
Arguments Throw {A} e.

#[global] Instance Result_bind : MBind Result := fun A B k r =>
  match r with
  | Ok a => k a
  | Throw e => Throw e
  end.

Definition completes {A : Type} (r : Result A) : bool :=
  match r with Ok _ => true | Throw _ => false end.

Inductive PdfObject : Type :=
| PdfRef (n : nat)
| PdfArray (refs : list nat).

(** What a [.dict] property can hold: nothing, a dictionary, or a value
    whose [delete] raises when called (a malformed or foreign object). *)
Inductive DictSlot : Type :=
| NoDict
| Dict (entries : gmap string PdfObject)
| FaultyDict.

(** [pdfDoc.catalog] and [page.node]: objects with a [.dict] property. *)
Record DictHolder : Type := { dict : DictSlot }.

(** A pdf-lib page: [page.node] may be missing. *)
Record PdfPage : Type := { node : option DictHolder }.

(** One widget of a field, as [addToPage] / [addOptionToPage] places it. *)
Record Widget : Type := {
  wpage : PdfPage;
  wrect : Rect.t;
  woption : option string
}.

Inductive FieldState : Type :=
| TextState (text : option string)
| CheckState (checked : bool)
| RadioState (selected : option string).

Record Field : Type := {
  fname : JsValue;
  fstate : FieldState;
  fwidgets : list Widget
}.

(** A loaded pdf-lib document: the catalog, the pages of [getPages()] and
    the fields of the form that [getForm()] exposes. *)
Record PdfDoc : Type := {
  catalog : option DictHolder;
  docPages : list PdfPage;
  formFields : list Field
}.

(** Serialised bytes.  [PDFDocument.load] and [pdfDoc.save] are kept as an
    opaque pair of inverse conversions. *)
Inductive Bytes : Type := Serialized (d : PdfDoc).

Definition PDFDocument_load (b : Bytes) : PdfDoc :=
  match b with Serialized d => d end.

Definition save (d : PdfDoc) : Bytes := Serialized d.

Module PdfLib.

(** [form.createTextField(name)], [createCheckBox], [createRadioGroup]. *)
Definition createTextField (name : JsValue) : Field :=
  {| fname := name; fstate := TextState None; fwidgets := [] |}.
Definition createCheckBox (name : JsValue) : Field :=
  {| fname := name; fstate := CheckState false; fwidgets := [] |}.
Definition createRadioGroup (name : JsValue) : Field :=
  {| fname := name; fstate := RadioState None; fwidgets := [] |}.

(** [field.addToPage(page, rect)]; pdf-lib validates its page argument
    and raises on [undefined]. *)
Definition addToPage (f : Field) (page : option PdfPage) (r : Rect.t)
  : Result Field :=
  match page with
  | None => Throw (LibraryError "page must be of type PDFPage")
  | Some p =>
      Ok {| fname := fname f; fstate := fstate f;
            fwidgets := fwidgets f ++
              [ {| wpage := p; wrect := r; woption := None |} ] |}
  end.

(** [group.addOptionToPage(option, page, rect)] *)
Definition addOptionToPage (f : Field) (opt : string)
    (page : option PdfPage) (r : Rect.t) : Result Field :=
  match page with
  | None => Throw (LibraryError "page must be of type PDFPage")
  | Some p =>
      Ok {| fname := fname f; fstate := fstate f;
            fwidgets := fwidgets f ++
              [ {| wpage := p; wrect := r; woption := Some opt |} ] |}
  end.

Definition setState (f : Field) (s : FieldState) : Field :=
  {| fname := fname f; fstate := s; fwidgets := fwidgets f |}.

(** [field.setText(s)], [field.check()], [field.uncheck()],
    [group.select(option)]. *)
Definition setText (f : Field) (s : string) : Field :=
  setState f (TextState (Some s)).
Definition check (f : Field) : Field := setState f (CheckState true).
Definition uncheck (f : Field) : Field := setState f (CheckState false).
Definition select (f : Field) (opt : string) : Field :=
  setState f (RadioState (Some opt)).

(** [dictHolder.dict.delete(PDFName.of(key))] *)
Definition dict_delete (h : DictHolder) (key : string) : Result DictHolder :=
  match dict h with
  | Dict m => Ok {| dict := Dict (delete key m) |}
  | NoDict => Throw (TypeError "cannot read properties of undefined")
  | FaultyDict => Throw (TypeError "dict.delete is not a function")
  end.

(** Truthiness of [holder && holder.dict]. *)
Definition has_dict (h : option DictHolder) : bool :=
  match h with
  | Some {| dict := NoDict |} | None => false
  | Some _ => true
  end.

End PdfLib.

(* ===================================================================== *)
(** * Form flattener (identical in both revisions) *)
(* ===================================================================== *)

(** [if (pdfDoc.catalog && pdfDoc.catalog.dict)
       pdfDoc.catalog.dict.delete(PDFName.of("AcroForm"));] *)
Definition deleteAcroForm (pdfDoc : PdfDoc) : Result PdfDoc :=
  match catalog pdfDoc with
  | Some h =>
      if PdfLib.has_dict (Some h) then
        h' ← PdfLib.dict_delete h "AcroForm";
        Ok {| catalog := Some h';
              docPages := docPages pdfDoc;
              formFields := formFields pdfDoc |}
      else Ok pdfDoc
  | None => Ok pdfDoc
  end.

(** [const node = page.node;
     if (node && node.dict) node.dict.delete(PDFName.of("Annots"));] *)
Definition deleteAnnots (page : PdfPage) : Result PdfPage :=
  match node page with
  | Some h =>
      if PdfLib.has_dict (Some h) then
        h' ← PdfLib.dict_delete h "Annots";
        Ok {| node := Some h' |}
      else Ok page
  | None => Ok page
  end.

(** [for (const page of pdfDoc.getPages()) { ... }]: the pages as they are
    when the loop is left, and the exception that left it, if any. *)
Fixpoint forPages_deleteAnnots (ps : list PdfPage) : list PdfPage * option Exn :=
  match ps with
  | [] => ([], None)
  | page :: rest =>
      match deleteAnnots page with
      | Throw e => (page :: rest, Some e)
      | Ok page' =>
          let '(rest', e) := forPages_deleteAnnots rest in
          (page' :: rest', e)
      end
  end.

(** Phase 1, the body of the first [try]: the document as the block leaves
    it, and the exception that the [catch (_)] swallows, if any. *)
Definition hardDelete (pdfDoc : PdfDoc) : PdfDoc * option Exn :=
  match deleteAcroForm pdfDoc with
  | Throw e => (pdfDoc, Some e)
  | Ok d1 =>
      let '(ps, e) := forPages_deleteAnnots (docPages d1) in
      ({| catalog := catalog d1; docPages := ps; formFields := formFields d1 |},
       e)
  end.

Section Flattener.

(** The library's [pdfDoc.getForm().flatten()], which may raise. *)
Variable form_flatten : PdfDoc -> Result PdfDoc.

(** Phase 2, the second [try { ... } catch (_) { }]. *)
Definition flattenFallback (pdfDoc : PdfDoc) : PdfDoc :=
  match form_flatten pdfDoc with
  | Ok d => d
  | Throw _ => pdfDoc
  end.

(** [async function flattenWithPdfLib(originalBytes)] (the embedding of the
    Helvetica font does not touch the structures modelled here). *)
Definition flattenWithPdfLib (originalBytes : Bytes) : Bytes :=
  let pdfDoc := PDFDocument_load originalBytes in
  let pdfDoc := fst (hardDelete pdfDoc) in
  let pdfDoc := flattenFallback pdfDoc in
  save pdfDoc.

End Flattener.

(** The hard-delete phase as the specification words it: the two removals
    are attempted independently of each other. *)
Definition hardDelete_independent (pdfDoc : PdfDoc) : PdfDoc :=
  let c := match deleteAcroForm pdfDoc with
           | Ok d => catalog d
           | Throw _ => catalog pdfDoc
           end in
  let ps := map (fun page => match deleteAnnots page with
                             | Ok page' => page'
                             | Throw _ => page
                             end) (docPages pdfDoc) in
  {| catalog := c; docPages := ps; formFields := formFields pdfDoc |}.

(** Does a page still carry an annotations-list entry? *)
Definition has_Annots (page : PdfPage) : bool :=
  match node page with
  | Some {| dict := Dict m |} => bool_decide (is_Some (m !! "Annots"))
  | _ => false
  end.

Definition has_AcroForm (pdfDoc : PdfDoc) : bool :=
  match catalog pdfDoc with
  | Some {| dict := Dict m |} => bool_decide (is_Some (m !! "AcroForm"))
  | _ => false
  end.

(* ===================================================================== *)
(** * Loops shared by both revisions of the extractor and re-applicator *)
(* ===================================================================== *)

Definition isWidget (a : Annotation) : bool :=
  strict_eq_str (subtype a) "Widget".

Section ExtractLoops.

(** The body of the [forEach((a, idx) => ...)] callback, for page number
    [i] and that page's viewport. *)
Variable widgetOverlay : nat -> Viewport -> nat -> Annotation -> Overlay.t.

(** [list.forEach((a, idx) => { extracted.push(...) })] *)
Fixpoint forEach_push (i : nat) (viewport : Viewport) (idx : nat)
    (anns : list Annotation) (extracted : list Overlay.t) : list Overlay.t :=
  match anns with
  | [] => extracted
  | a :: rest =>
      forEach_push i viewport (S idx) rest
        (extracted ++ [widgetOverlay i viewport idx a])
  end.

(** [for (let i = 1; i <= pdf.numPages; i++) { ... }]; [rest] holds the
    pages [getPage(i)], [getPage(i+1)], ... *)
Fixpoint forPages_extract (i : nat) (rest : list PdfJsPage)
    (pageList : list PdfJsPage) (extracted : list Overlay.t)
  : list PdfJsPage * list Overlay.t :=
  match rest with
  | [] => (pageList, extracted)
  | page :: rest' =>
      let pageList := pageList ++ [page] in
      let anns := getAnnotations page in
      let viewport := getViewport page SCALE (rotate page) in
      let extracted :=
        forEach_push i viewport 0 (filter (fun a => isWidget a = true) anns)
          extracted in
      forPages_extract (S i) rest' pageList extracted
  end.

(** [async function extractFieldsWithPdfJs(bytesForPdfjs)]: the loaded
    document is the list of its pages; the result is the page list
    handed to [setPages] and the returned overlays. *)
Definition extractFieldsWithPdfJs (pdf : list PdfJsPage)
  : list PdfJsPage * list Overlay.t :=
  forPages_extract 1 pdf [] [].

End ExtractLoops.

(** The part of the application state that [applyAndDownload] reads, and
    the downloads it has triggered so far. *)
Record Session : Type := {
  pages : list PdfJsPage;
  flattenedBytes : option Bytes;
  overlays : list Overlay.t;
  downloads : list Bytes
}.

Section ApplyLoops.

(** The body of [for (const ov of overlays) { ... }]. *)
Variable applyOverlay :
  list PdfPage -> list PdfJsPage -> list Field -> Overlay.t -> Result (list Field).

Fixpoint forOverlays (pdfPages : list PdfPage) (pages : list PdfJsPage)
    (overlays : list Overlay.t) (form : list Field) : Result (list Field) :=
  match overlays with
  | [] => Ok form
  | ov :: rest =>
      form' ← applyOverlay pdfPages pages form ov;
      forOverlays pdfPages pages rest form'
  end.

(** [async function applyFields(flattenedBytes, overlays, pages)] *)
Definition applyFields (flattenedBytes : Bytes) (overlays : list Overlay.t)
    (pages : list PdfJsPage) : Result Bytes :=
  let pdfDoc := PDFDocument_load flattenedBytes in
  let form := formFields pdfDoc in
  let pdfPages := docPages pdfDoc in
  form' ← forOverlays pdfPages pages overlays form;
  Ok (save {| catalog := catalog pdfDoc;
              docPages := docPages pdfDoc;
              formFields := form' |}).

(** [async function applyAndDownload()]: the session afterwards, and the
    exception that escaped, if any. *)
Definition applyAndDownload (s : Session) : Session * option Exn :=
  match flattenedBytes s with
  | None => (s, None)
  | Some fb =>
      match pages s with
      | [] => (s, None)
      | _ =>
          match applyFields fb (overlays s) (pages s) with
          | Throw e => (s, Some e)
          | Ok out =>
              ({| pages := pages s;
                  flattenedBytes := flattenedBytes s;
                  overlays := overlays s;
                  downloads := downloads s ++ [out] |}, None)
          end
      end
  end.

End ApplyLoops.

Definition isTextLike (ty : string) : bool :=
  String.eqb ty "text" || String.eqb ty "date" || String.eqb ty "dropdown".

Definition isTick (ty : string) : bool :=
  String.eqb ty "checkbox" || String.eqb ty "radio".

(* ===================================================================== *)
(** * Revision [pdf_form_extract_edit_apply_webapp_..._interact.jsx] *)
(* ===================================================================== *)

Module Current.

(** Loop body of [applyFields]: checkbox and radio widgets are stored as
    squares of side [Math.max(12, Math.min(r.width, r.height))]. *)
Definition applyOverlay (pdfPages : list PdfPage) (pages : list PdfJsPage)
    (form : list Field) (ov : Overlay.t) : Result (list Field) :=
  let targPage := index pdfPages (Overlay.pageIndex ov) in
  match index pages (Overlay.pageIndex ov) with
  | None => Throw (TypeError "cannot read properties of undefined (reading 'getViewport')")
  | Some pdfjsPage =>
      let viewport := getViewport pdfjsPage SCALE (rotate pdfjsPage) in
      let r := viewportToPdfRectFromViewportRect
                 (Overlay.x ov) (Overlay.y ov)
                 (Overlay.width ov) (Overlay.height ov) viewport in
      if isTextLike (Overlay.type ov) then
        let field := PdfLib.createTextField
                       (or_else (Overlay.name ov)
                                (JsString ("Text_" +:+ Overlay.id ov))) in
        field ← PdfLib.addToPage field targPage
                  {| Rect.x := Rect.x r; Rect.y := Rect.y r;
                     Rect.width := Rect.width r; Rect.height := Rect.height r |};
        let field := if truthy (Overlay.value ov)
                     then PdfLib.setText field (ToString (Overlay.value ov))
                     else field in
        Ok (form ++ [field])
      else if String.eqb (Overlay.type ov) "checkbox" then
        let field := PdfLib.createCheckBox
                       (or_else (Overlay.name ov)
                                (JsString ("Check_" +:+ Overlay.id ov))) in
        let s := Qmax 12 (Qmin (Rect.width r) (Rect.height r)) in
        field ← PdfLib.addToPage field targPage
                  {| Rect.x := Rect.x r; Rect.y := Rect.y r;
                     Rect.width := s; Rect.height := s |};
        let field := if truthy (Overlay.value ov)
                     then PdfLib.check field else PdfLib.uncheck field in
        Ok (form ++ [field])
      else if String.eqb (Overlay.type ov) "radio" then
        let group := PdfLib.createRadioGroup
                       (or_else (Overlay.name ov)
                                (JsString ("Radio_" +:+ Overlay.id ov))) in
        let s := Qmax 12 (Qmin (Rect.width r) (Rect.height r)) in
        group ← PdfLib.addOptionToPage group "on" targPage
                  {| Rect.x := Rect.x r; Rect.y := Rect.y r;
                     Rect.width := s; Rect.height := s |};
        let group := if truthy (Overlay.value ov)
                     then PdfLib.select group "on" else group in
        Ok (form ++ [group])
      else Ok form
  end.

Definition applyFields := applyFields applyOverlay.
Definition applyAndDownload := applyAndDownload applyOverlay.

(** Callback body of [extractFieldsWithPdfJs]. *)
Definition widgetOverlay (i : nat) (viewport : Viewport) (idx : nat)
    (a : Annotation) : Overlay.t :=
  let rect := pdfRectToViewportRect (rect a) viewport in
  let t := or_else (or_else (fieldType a) (widgetType a)) (JsString "text") in
  let name := or_else (or_else (fieldName a) (alternativeText a))
                (JsString ("Field_" +:+ decimal i +:+ "_" +:+ decimal idx)) in
  let value := nullish (fieldValue a) (JsString "") in
  let mappedType := mapPdfJsFieldType t in
  if String.eqb mappedType "checkbox" || String.eqb mappedType "radio" then
    let s := Qmax 12 (Qmin (Rect.width rect) (Rect.height rect)) in
    {| Overlay.id := decimal i +:+ "_" +:+ decimal idx +:+ "_" +:+ ToString name;
       Overlay.pageIndex := Z.of_nat i - 1;
       Overlay.type := mappedType;
       Overlay.name := name;
       Overlay.value := value;
       Overlay.x := Rect.x rect; Overlay.y := Rect.y rect;
       Overlay.width := s; Overlay.height := s |}
  else
    {| Overlay.id := decimal i +:+ "_" +:+ decimal idx +:+ "_" +:+ ToString name;
       Overlay.pageIndex := Z.of_nat i - 1;
       Overlay.type := mappedType;
       Overlay.name := name;
       Overlay.value := value;
       Overlay.x := Rect.x rect; Overlay.y := Rect.y rect;
       Overlay.width := Qmax 40 (Rect.width rect);
       Overlay.height := Qmax 20 (Rect.height rect) |}.

Definition extractFieldsWithPdfJs := extractFieldsWithPdfJs widgetOverlay.

End Current.

(* ===================================================================== *)
(** * Revision [unnamed/part_000] *)
(* ===================================================================== *)

Module Earlier.

(** Loop body of [applyFields]: checkbox and radio widgets get
    [Math.max(12, r.width)] by [Math.max(12, r.height)]. *)
Definition applyOverlay (pdfPages : list PdfPage) (pages : list PdfJsPage)
    (form : list Field) (ov : Overlay.t) : Result (list Field) :=
  let targPage := index pdfPages (Overlay.pageIndex ov) in
  match index pages (Overlay.pageIndex ov) with
  | None => Throw (TypeError "cannot read properties of undefined (reading 'getViewport')")
  | Some pdfjsPage =>
      let viewport := getViewport pdfjsPage SCALE (rotate pdfjsPage) in
      let r := viewportToPdfRectFromViewportRect
                 (Overlay.x ov) (Overlay.y ov)
                 (Overlay.width ov) (Overlay.height ov) viewport in
      if isTextLike (Overlay.type ov) then
        let field := PdfLib.createTextField
                       (or_else (Overlay.name ov)
                                (JsString ("Text_" +:+ Overlay.id ov))) in
        field ← PdfLib.addToPage field targPage
                  {| Rect.x := Rect.x r; Rect.y := Rect.y r;
                     Rect.width := Rect.width r; Rect.height := Rect.height r |};
        let field := if truthy (Overlay.value ov)
                     then PdfLib.setText field (ToString (Overlay.value ov))
                     else field in
        Ok (form ++ [field])
      else if String.eqb (Overlay.type ov) "checkbox" then
        let field := PdfLib.createCheckBox
                       (or_else (Overlay.name ov)
                                (JsString ("Check_" +:+ Overlay.id ov))) in
        field ← PdfLib.addToPage field targPage
                  {| Rect.x := Rect.x r; Rect.y := Rect.y r;
                     Rect.width := Qmax 12 (Rect.width r);
                     Rect.height := Qmax 12 (Rect.height r) |};
        let field := if truthy (Overlay.value ov)
                     then PdfLib.check field else PdfLib.uncheck field in
        Ok (form ++ [field])
      else if String.eqb (Overlay.type ov) "radio" then
        let group := PdfLib.createRadioGroup
                       (or_else (Overlay.name ov)
                                (JsString ("Radio_" +:+ Overlay.id ov))) in
        group ← PdfLib.addOptionToPage group "on" targPage
                  {| Rect.x := Rect.x r; Rect.y := Rect.y r;
                     Rect.width := Qmax 12 (Rect.width r);
                     Rect.height := Qmax 12 (Rect.height r) |};
        let group := if truthy (Overlay.value ov)
                     then PdfLib.select group "on" else group in
        Ok (form ++ [group])
      else Ok form
  end.

Definition applyFields := applyFields applyOverlay.
Definition applyAndDownload := applyAndDownload applyOverlay.

(** Callback body of [extractFieldsWithPdfJs]: one size policy for every
    canonical type. *)
Definition widgetOverlay (i : nat) (viewport : Viewport) (idx : nat)
    (a : Annotation) : Overlay.t :=
  let rect := pdfRectToViewportRect (rect a) viewport in
  let t := or_else (or_else (fieldType a) (widgetType a)) (JsString "text") in
  let name := or_else (or_else (fieldName a) (alternativeText a))
                (JsString ("Field_" +:+ decimal i +:+ "_" +:+ decimal idx)) in
  let value := nullish (fieldValue a) (JsString "") in
  {| Overlay.id := decimal i +:+ "_" +:+ decimal idx +:+ "_" +:+ ToString name;
     Overlay.pageIndex := Z.of_nat i - 1;
     Overlay.type := mapPdfJsFieldType t;
     Overlay.name := name;
     Overlay.value := value;
     Overlay.x := Rect.x rect; Overlay.y := Rect.y rect;
     Overlay.width := Qmax 40 (Rect.width rect);
     Overlay.height := Qmax 20 (Rect.height rect) |}.

Definition extractFieldsWithPdfJs := extractFieldsWithPdfJs widgetOverlay.

End Earlier.

(* ===================================================================== *)
(** * A concrete pdf.js viewport, and sample inputs *)
(* ===================================================================== *)

Module PdfJs.

#[local] Open Scope Q_scope.

(** [Util.applyTransform(p, m)] of pdf.js, in exact arithmetic. *)
Definition applyTransform (p : Q * Q) (m : Q * Q * Q * Q * Q * Q) : Q * Q :=
  let '(m0, m1, m2, m3, m4, m5) := m in
  (fst p * m0 + snd p * m2 + m4, fst p * m1 + snd p * m3 + m5).

(** [Util.applyInverseTransform(p, m)] *)
Definition applyInverseTransform (p : Q * Q) (m : Q * Q * Q * Q * Q * Q)
  : Q * Q :=
  let '(m0, m1, m2, m3, m4, m5) := m in
  let d := m0 * m3 - m1 * m2 in
  ((fst p * m3 - snd p * m2 + m2 * m5 - m4 * m3) / d,
   (- fst p * m1 + snd p * m0 + m4 * m1 - m5 * m0) / d).

(** The transform matrix that the [PageViewport] constructor computes for
    a view box, a scale and one of the rotations 0, 90, 180, 270 (any other
    rotation is rejected by pdf.js; it is given the matrix of rotation 0
    here). *)
Definition transform (viewBox : RectArray) (scale : Q) (rotation : Z)
  : Q * Q * Q * Q * Q * Q :=
  let '(v0, v1, v2, v3) := viewBox in
  let centerX := (v2 + v0) / 2 in
  let centerY := (v3 + v1) / 2 in
  let '(rotateA, rotateB, rotateC, rotateD) :=
    if (rotation =? 180)%Z then (- (1), 0, 0, 1)
    else if (rotation =? 90)%Z then (0, 1, 1, 0)
    else if (rotation =? 270)%Z then (0, - (1), - (1), 0)
    else (1, 0, 0, - (1)) in
  let '(offsetCanvasX, offsetCanvasY) :=
    if Qeq_bool rotateA 0
    then (Qabs (centerY - v1) * scale, Qabs (centerX - v0) * scale)
    else (Qabs (centerX - v0) * scale, Qabs (centerY - v1) * scale) in
  (rotateA * scale, rotateB * scale, rotateC * scale, rotateD * scale,
   offsetCanvasX - rotateA * scale * centerX - rotateC * scale * centerY,
   offsetCanvasY - rotateB * scale * centerX - rotateD * scale * centerY).

(** [new PageViewport({ viewBox, scale, rotation })] *)
Definition PageViewport (viewBox : RectArray) (scale : Q) (rotation : Z)
  : Viewport :=
  let m := transform viewBox scale rotation in
  {| convertToPdfPoint := fun x y => applyInverseTransform (x, y) m;
     convertToViewportRectangle := fun r =>
       let '(r0, r1, r2, r3) := r in
       let topLeft := applyTransform (r0, r1) m in
       let bottomRight := applyTransform (r2, r3) m in
       (fst topLeft, snd topLeft, fst bottomRight, snd bottomRight) |}.

(** A page handle over a view box. *)
Definition page (viewBox : RectArray) (rot : Z) (anns : list Annotation)
  : PdfJsPage :=
  {| rotate := rot;
     getViewport := PageViewport viewBox;
     getAnnotations := anns |}.

End PdfJs.

Module Sample.

#[local] Open Scope Q_scope.

(** A US-letter page, unrotated: [gen.addPage([612, 792])]. *)
Definition letter : RectArray := (0, 0, 612, 792).

Definition widget (ft name : JsValue) (v : JsValue) (r : RectArray)
  : Annotation :=
  {| subtype := JsString "Widget"; fieldType := ft;
     widgetType := JsUndefined; fieldName := name;
     alternativeText := JsUndefined; fieldValue := v; rect := r |}.

Definition link : Annotation :=
  {| subtype := JsString "Link"; fieldType := JsUndefined;
     widgetType := JsUndefined; fieldName := JsUndefined;
     alternativeText := JsUndefined; fieldValue := JsUndefined;
     rect := (0, 0, 10, 10) |}.

(** Page 1 of the self-test fixture: a text field "Name" and a checkbox
    "Agree" without a current value. *)
Definition fixturePage : PdfJsPage :=
  PdfJs.page letter 0
    [ widget (JsString "Tx") (JsString "Name") (JsString "Ada")
        (72, 700, 272, 724);
      link;
      widget (JsString "Btn") (JsString "Agree") JsUndefined
        (72, 660, 88, 676) ].

Definition blankPage : PdfJsPage := PdfJs.page letter 0 [].

Definition emptyDict : DictHolder := {| dict := Dict ∅ |}.

Definition pdfLibPage : PdfPage := {| node := Some emptyDict |}.

Definition annotatedPage : PdfPage :=
  {| node := Some {| dict := Dict {[ "Annots" := PdfArray [7%nat] ]} |} |}.

(** A flattened one-page document. *)
(** A checkbox widget of 20 by 8 points without a current value, and the
    viewport of an unrotated letter page at the session scale. *)
Definition flatTick : Annotation :=
  widget (JsString "Btn") (JsString "Agree") JsUndefined (72, 660, 92, 668).

Definition letterViewport : Viewport := PdfJs.PageViewport letter SCALE 0.

Definition flatDoc : PdfDoc :=
  {| catalog := Some emptyDict; docPages := [pdfLibPage]; formFields := [] |}.

(** A document whose catalog dictionary is malformed and whose only page
    carries an annotations list. *)
Definition faultyCatalogDoc : PdfDoc :=
  {| catalog := Some {| dict := FaultyDict |};
     docPages := [annotatedPage]; formFields := [] |}.

Definition overlay (ident ty : string) (nm v : JsValue) (pg : Z)
    (ox oy ow oh : Q) : Overlay.t :=
  {| Overlay.id := ident; Overlay.pageIndex := pg; Overlay.type := ty;
     Overlay.name := nm; Overlay.value := v;
     Overlay.x := ox; Overlay.y := oy;
     Overlay.width := ow; Overlay.height := oh |}.

(** A checkbox overlay of 30 by 12 pixels: 20 by 8 points at scale 1.5. *)
Definition tick30x12 : Overlay.t :=
  overlay "new_1" "checkbox" (JsString "") (JsBool true) 0 60 60 30 12.

Definition signature : Overlay.t :=
  overlay "new_2" "signature" (JsString "") (JsString "") 0 60 60 160 28.

Definition textOverlay : Overlay.t :=
  overlay "new_3" "text" (JsString "") (JsString "hello") 0 60 100 160 28.

(** A text overlay that points at the fourth page. *)
Definition strayOverlay : Overlay.t :=
  overlay "new_4" "text" (JsString "Stray") (JsString "") 3 10 10 160 28.

(** An overlay of an unknown type that points at the second page. *)
Definition straySignature : Overlay.t :=
  overlay "new_5" "signature" (JsString "") (JsString "") 1 10 10 160 28.


End Sample.

(** The names of the fields of a saved document. *)
Definition createdNames (r : Result Bytes) : option (list JsValue) :=
  match r with
  | Ok out => Some (map fname (formFields (PDFDocument_load out)))
  | Throw _ => None
  end.

(** The rectangles of all widgets of a list of fields, in order. *)
Definition widgetRects (fs : list Field) : list Rect.t :=
  flat_map (fun f => map wrect (fwidgets f)) fs.

(** The converted PDF-space rectangle of an overlay on a page handle. *)
Definition convertedRect (ov : Overlay.t) (pdfjsPage : PdfJsPage) : Rect.t :=
  viewportToPdfRectFromViewportRect
    (Overlay.x ov) (Overlay.y ov) (Overlay.width ov) (Overlay.height ov)
    (getViewport pdfjsPage SCALE (rotate pdfjsPage)).



(* ===================================================================== *)
(** * Vocabulary of the statements *)
(* ===================================================================== *)





(** The name prefix that goes with an overlay type. *)
Definition typePrefix (ty : string) : option string :=
  if isTextLike ty then Some "Text_"
  else if String.eqb ty "checkbox" then Some "Check_"
  else if String.eqb ty "radio" then Some "Radio_"
  else None.

(** The field name as the specification words it: the overlay's name when
    it is non-empty, else the prefix followed by the overlay id.  (A name
    that is not a string stands when it tests true, and counts as empty
    otherwise.) *)
Definition fieldNameFor (ov : Overlay.t) (pre : string) : JsValue :=
  match Overlay.name ov with
  | JsString s =>
      if decide (s = "") then JsString (pre +:+ Overlay.id ov) else JsString s
  | JsBool true => JsBool true
  | _ => JsString (pre +:+ Overlay.id ov)
  end.


(** The type of an overlay is none of text, date, dropdown, checkbox, radio. *)
Definition unknownType (ov : Overlay.t) : Prop :=
  typePrefix (Overlay.type ov) = None.


(** The page index of an overlay is outside of an array. *)
Definition outOfRange {A : Type} (arr : list A) (ov : Overlay.t) : Prop :=
  (Overlay.pageIndex ov < 0 ∨ Z.of_nat (length arr) ≤ Overlay.pageIndex ov)%Z.


(** The widget annotations of a page, and the viewport the extractor uses
    for it. *)
Definition pageWidgets (page : PdfJsPage) : list Annotation :=
  filter (λ a, isWidget a = true) (getAnnotations page).

Definition pageViewport (page : PdfJsPage) : Viewport :=
  getViewport page SCALE (rotate page).

(** One overlay per widget annotation, in page order and, within a page,
    in annotation order; pages are numbered from 1, widgets from 0. *)
Definition overlaysOfWidgets
    (widgetOverlay : nat → Viewport → nat → Annotation → Overlay.t)
    (pdf : list PdfJsPage) : list Overlay.t :=
  concat (imap (λ k page,
            imap (λ idx a, widgetOverlay (S k) (pageViewport page) idx a)
                 (pageWidgets page)) pdf).

(** The canonical type the extractor gives to an annotation. *)
Definition canonicalType (a : Annotation) : string :=
  mapPdfJsFieldType
    (or_else (or_else (fieldType a) (widgetType a)) (JsString "text")).

(** Size policies, as functions from the canonical type and the converted
    rectangle to the overlay's width and height. *)
Definition sizePolicy_claimed (ty : string) (r : Rect.t) : Q * Q :=
  if isTick ty
  then (Qmax 12 (Rect.width r), Qmax 12 (Rect.height r))
  else (Qmax 40 (Rect.width r), Qmax 20 (Rect.height r)).

Definition sizePolicy_square (ty : string) (r : Rect.t) : Q * Q :=
  if isTick ty
  then let s := Qmax 12 (Qmin (Rect.width r) (Rect.height r)) in (s, s)
  else (Qmax 40 (Rect.width r), Qmax 20 (Rect.height r)).

Definition sizePolicy_uniform (ty : string) (r : Rect.t) : Q * Q :=
  (Qmax 40 (Rect.width r), Qmax 20 (Rect.height r)).

(** [widgetOverlay] gives every widget the canonical type, the origin of
    the converted rectangle and the size that [policy] prescribes. *)
Definition follows_size_policy
    (widgetOverlay : nat → Viewport → nat → Annotation → Overlay.t)
    (policy : string → Rect.t → Q * Q) : Prop :=
  ∀ i viewport idx a,
    let ov := widgetOverlay i viewport idx a in
    let r := pdfRectToViewportRect (rect a) viewport in
    Overlay.type ov = canonicalType a ∧
    Overlay.x ov = Rect.x r ∧ Overlay.y ov = Rect.y r ∧
    (Overlay.width ov == fst (policy (canonicalType a) r))%Q ∧
    (Overlay.height ov == snd (policy (canonicalType a) r))%Q.

(** The overlay value as the specification words it: the current field
    value when present, else the empty string or [false] by value kind. *)
Definition value_claimed (ty : string) (fv : JsValue) : JsValue :=
  match fv with
  | JsUndefined | JsNull => if isTick ty then JsBool false else JsString ""
  | v => v
  end.

(** Splitting a string at the first occurrence of a code unit. *)
Fixpoint occurs (c : ascii) (s : string) : bool :=
  match s with
  | EmptyString => false
  | String d r => Ascii.eqb c d || occurs c r
  end.

Fixpoint before (c : ascii) (s : string) : string :=
  match s with
  | EmptyString => EmptyString
  | String d r => if Ascii.eqb c d then EmptyString else String d (before c r)
  end.

Fixpoint after (c : ascii) (s : string) : string :=
  match s with
  | EmptyString => EmptyString
  | String d r => if Ascii.eqb c d then r else after c r
  end.

(** The page number and widget index that an overlay id starts with. *)
Definition idKey (ident : string) : string * string :=
  (before "_" ident, before "_" (after "_" ident)).

(** A [.dict] slot holds a value whose [delete] raises. *)
Definition faultySlot (h : option DictHolder) : bool :=
  match h with
  | Some {| dict := FaultyDict |} => true
  | _ => false
  end.

(** No removal of the hard-delete phase can raise on this document. *)
Definition faultless (pdfDoc : PdfDoc) : Prop :=
  faultySlot (catalog pdfDoc) = false ∧
  Forall (λ page, faultySlot (node page) = false) (docPages pdfDoc).

(** Neither a form-catalog entry nor an annotations-list entry is present. *)
Definition formless (pdfDoc : PdfDoc) : Prop :=
  has_AcroForm pdfDoc = false ∧
  Forall (λ page, has_Annots page = false) (docPages pdfDoc).

(** The self-test's drift: the summed absolute differences of the four
    components of two rectangles. *)
Definition drift (a b : Rect.t) : Q :=
  Qabs (Rect.x a - Rect.x b) + Qabs (Rect.y a - Rect.y b) +
  Qabs (Rect.width a - Rect.width b) + Qabs (Rect.height a - Rect.height b).

(** Viewport to PDF and back, as the self-test composes them. *)
Definition viewportRoundTrip (r : Rect.t) (viewport : Viewport) : Rect.t :=
  let rp := viewportToPdfRectFromViewportRect
              (Rect.x r) (Rect.y r) (Rect.width r) (Rect.height r) viewport in
  pdfRectToViewportRect
    (Rect.x rp, Rect.y rp,
     Rect.x rp + Rect.width rp, Rect.y rp + Rect.height rp)%Q viewport.

(** PDF to viewport and back. *)
Definition pdfRoundTrip (r : Rect.t) (viewport : Viewport) : Rect.t :=
  let rv := pdfRectToViewportRect
              (Rect.x r, Rect.y r,
               Rect.x r + Rect.width r, Rect.y r + Rect.height r)%Q viewport in
  viewportToPdfRectFromViewportRect
    (Rect.x rv) (Rect.y rv) (Rect.width rv) (Rect.height rv) viewport.

(* ===================================================================== *)
(** * The editing session: overlay list operations *)
(* ===================================================================== *)

(** [prev.map(o => o.id === next.id ? next : o)], the state update of
    [updateOverlay(next)] in both revisions. *)
Definition updateOverlay (next : Overlay.t) (prev : list Overlay.t)
  : list Overlay.t :=
  map (λ o, if String.eqb (Overlay.id o) (Overlay.id next) then next else o)
      prev.

(** [prev.filter(o => o.id !== id)], the state update of
    [deleteOverlay(id)] in both revisions. *)
Definition deleteOverlay (id : string) (prev : list Overlay.t)
  : list Overlay.t :=
  filter (λ o, Overlay.id o ≠ id) prev.

(** [overlays.find(o => o.id === selectedId) || null] *)
Definition selectedField (overlays : list Overlay.t)
    (selectedId : option string) : option Overlay.t :=
  match selectedId with
  | None => None
  | Some i => List.find (λ o, String.eqb (Overlay.id o) i) overlays
  end.

(** [overlays.filter((f) => f.pageIndex === i)]: the overlays that
    [PageLayer] draws on page [i] and [LeftSidebar] lists under it. *)
Definition pageOverlays (overlays : list Overlay.t) (i : nat)
  : list Overlay.t :=
  filter (λ f, Overlay.pageIndex f = Z.of_nat i) overlays.

(** [const byPage = Array.from({ length: pages.length || 0 }, (_, i) =>
      ({ pageIndex: i, items: overlays.filter(...) }))] *)
Definition byPage (pages : list PdfJsPage) (overlays : list Overlay.t)
  : list (nat * list Overlay.t) :=
  map (λ i, (i, pageOverlays overlays i)) (seq 0 (length pages)).

Module CurrentUi.

(** The overlay that [addField(type)] appends; [now] is [Date.now()]. *)
Definition newOverlay (type : string) (now : nat) : Overlay.t :=
  let isTick := String.eqb type "checkbox" || String.eqb type "radio" in
  {| Overlay.id := "new_" +:+ decimal now;
     Overlay.pageIndex := 0;
     Overlay.type := type;
     Overlay.name := JsString "";
     Overlay.value := if isTick then JsBool false else JsString "";
     Overlay.x := 60;
     Overlay.y := 60;
     Overlay.width := if isTick then 16 else 160;
     Overlay.height := if isTick then 16 else 28 |}.

(** The state that the overlay handlers of [App] read and write. *)
Record State : Type := {
  pages : list PdfJsPage;
  overlays : list Overlay.t;
  selectedId : option string
}.

(** [function addField(type)] *)
Definition addField (type : string) (now : nat) (st : State) : State :=
  match pages st with
  | [] => st
  | _ =>
      {| pages := pages st;
         overlays := overlays st ++ [newOverlay type now];
         selectedId := Some ("new_" +:+ decimal now) |}
  end.

(** [function updateOverlay(next)] *)
Definition updateOverlay (next : Overlay.t) (st : State) : State :=
  {| pages := pages st;
     overlays := updateOverlay next (overlays st);
     selectedId := Some (Overlay.id next) |}.

(** [function deleteOverlay(id)] *)
Definition deleteOverlay (id : string) (st : State) : State :=
  {| pages := pages st;
     overlays := deleteOverlay id (overlays st);
     selectedId :=
       match selectedId st with
       | Some i => if String.eqb i id then None else Some i
       | None => None
       end |}.

(** [setSelectedId(id)]: [onSelect] of the field list, of an overlay
    ([f.id]) and of the page background ([null]). *)
Definition select (id : option string) (st : State) : State :=
  {| pages := pages st; overlays := overlays st; selectedId := id |}.

(** The end of [onFileSelected]: [setPages(flatPages)],
    [setOverlays(existing)], [setSelectedId(existing[0]?.id || null)]. *)
Definition loaded (flatPages : list PdfJsPage) (existing : list Overlay.t)
  : State :=
  {| pages := flatPages;
     overlays := existing;
     selectedId :=
       match existing with
       | [] => None
       | o :: _ =>
           if String.eqb (Overlay.id o) "" then None else Some (Overlay.id o)
       end |}.

(** The objects [{ ...field, [k]: v }] that [RightSidebar] and
    [OverlayField] pass to [onChange], by the keys they overwrite. *)
Inductive Edit : Type :=
| SetName (v : string)
| SetValue (v : JsValue)
| SetOptions
| SetPageIndex (i : nat)
| SetX (n : Q)
| SetY (n : Q)
| SetWidth (n : Q)
| SetHeight (n : Q)
| DragEnd (dx dy : Q)
| ResizeEnd (rx ry w h : Q).

Definition edited (e : Edit) (field : Overlay.t) : Overlay.t :=
  let '(Overlay.mk id pageIndex type name value x y width height) := field in
  match e with
  | SetName v => Overlay.mk id pageIndex type (JsString v) value x y width height
  | SetValue v => Overlay.mk id pageIndex type name v x y width height
  | SetOptions => field
  | SetPageIndex i =>
      Overlay.mk id (Z.of_nat i) type name value x y width height
  | SetX n => Overlay.mk id pageIndex type name value n y width height
  | SetY n => Overlay.mk id pageIndex type name value x n width height
  | SetWidth n => Overlay.mk id pageIndex type name value x y n height
  | SetHeight n => Overlay.mk id pageIndex type name value x y width n
  | DragEnd dx dy =>
      Overlay.mk id pageIndex type name value (x + dx) (y + dy) width height
  | ResizeEnd rx ry w h =>
      Overlay.mk id pageIndex type name value (x + rx) (y + ry) w h
  end.

(** Which edits the rendered controls offer for [field]: the page select
    lists the pages [0 .. pagesCount - 1]; the width and height inputs are
    [disabled] for checkbox and radio, for which [resizable] is not
    registered either; the checked box is shown for checkbox and radio, the
    value input for the other types. *)
Definition offered (pagesCount : nat) (field : Overlay.t) (e : Edit) : Prop :=
  match e with
  | SetValue (JsBool _) => isTick (Overlay.type field) = true
  | SetValue (JsString _) => isTick (Overlay.type field) = false
  | SetValue _ => False
  | SetPageIndex i => (i < pagesCount)%nat
  | SetWidth _ | SetHeight _ | ResizeEnd _ _ _ _ =>
      isTick (Overlay.type field) = false
  | _ => True
  end.

(** One user action on the editor, by the handler it runs.  [field] is the
    [field] property of the control used: an element of [overlays]. *)
Inductive step (st : State) : State → Prop :=
| step_addField (type : string) (now : nat) :
    step st (addField type now st)
| step_select (field : Overlay.t) :
    field ∈ overlays st → step st (select (Some (Overlay.id field)) st)
| step_deselect :
    step st (select None st)
| step_change (field : Overlay.t) (e : Edit) :
    field ∈ overlays st → offered (length (pages st)) field e →
    step st (updateOverlay (edited e field) st)
| step_delete (field : Overlay.t) :
    selectedField (overlays st) (selectedId st) = Some field →
    step st (deleteOverlay (Overlay.id field) st)
| step_keyDelete (id : string) :
    selectedId st = Some id → step st (deleteOverlay id st).

(** [addField] called once per element of [adds], a type and the time of
    the call. *)
Definition addFields (adds : list (string * nat)) (st : State) : State :=
  fold_left (λ st a, addField (fst a) (snd a) st) adds st.

End CurrentUi.

Module EarlierUi.

(** The overlay that [addField(type)] appends; [now] is [Date.now()]. *)
Definition newOverlay (type : string) (now : nat) : Overlay.t :=
  {| Overlay.id := "new_" +:+ decimal now;
     Overlay.pageIndex := 0;
     Overlay.type := type;
     Overlay.name := JsString "";
     Overlay.value :=
       if String.eqb type "checkbox" || String.eqb type "radio"
       then JsBool false else JsString "";
     Overlay.x := 60;
     Overlay.y := 60;
     Overlay.width := 160;
     Overlay.height := 28 |}.

(** [function addField(type)], on the [pages] and [overlays] states. *)
Definition addField (type : string) (now : nat) (pages : list PdfJsPage)
    (overlays : list Overlay.t) : list Overlay.t :=
  match pages with
  | [] => overlays
  | _ => overlays ++ [newOverlay type now]
  end.

(** [addField] called once per element of [adds], a type and the time of
    the call. *)
Definition addFields (adds : list (string * nat)) (pages : list PdfJsPage)
    (overlays : list Overlay.t) : list Overlay.t :=
  fold_left (λ ovs a, addField (fst a) (snd a) pages ovs) adds overlays.

End EarlierUi.

(* ===================================================================== *)
(** * Sidebar resizing and the download name *)
(* ===================================================================== *)

(** The [dragging] state: ['left'], ['right'] or [null]. *)
Inductive Dragging : Type := DragLeft | DragRight | NotDragging.

(** What [shell.getBoundingClientRect()] provides. *)
Record ClientRect : Type := {
  rect_left : Q;
  rect_right : Q;
  rect_width : Q
}.

Record SidebarWidths : Type := {
  leftWidth : Q;
  rightWidth : Q
}.

(** [function onMove(e)] of the sidebar resizer; [shell] is
    [shellRef.current] with its bounding rectangle. *)
Definition onMove (dragging : Dragging) (shell : option ClientRect)
    (clientX : Q) (w : SidebarWidths) : SidebarWidths :=
  match dragging, shell with
  | NotDragging, _ => w
  | _, None => w
  | DragLeft, Some rect =>
      let min := 180%Q in
      let max := Qmax 240 (rect_width rect - rightWidth w - 240) in
      let next := Qmin max (Qmax min (clientX - rect_left rect)) in
      {| leftWidth := next; rightWidth := rightWidth w |}
  | DragRight, Some rect =>
      let min := 200%Q in
      let max := Qmax 240 (rect_width rect - leftWidth w - 240) in
      let next := Qmin max (Qmax min (rect_right rect - clientX)) in
      {| leftWidth := leftWidth w; rightWidth := next |}
  end.

(** A sequence of pointer moves during one drag. *)
Definition onMoves (dragging : Dragging) (shell : option ClientRect)
    (xs : list Q) (w : SidebarWidths) : SidebarWidths :=
  fold_left (λ w clientX, onMove dragging shell clientX w) xs w.

(** Does the regular expression [/\.pdf$/i] match all of [s]: a dot followed
    by the letters p, d, f in either case, and nothing else? *)
Definition isDotPdf (s : string) : bool :=
  match s with
  | String c0 (String c1 (String c2 (String c3 EmptyString))) =>
      Ascii.eqb c0 "." &&
      (Ascii.eqb c1 "p" || Ascii.eqb c1 "P") &&
      (Ascii.eqb c2 "d" || Ascii.eqb c2 "D") &&
      (Ascii.eqb c3 "f" || Ascii.eqb c3 "F")
  | _ => false
  end.

(** [s.replace(/\.pdf$/i, "")]: the match can only sit at the end. *)
Fixpoint stripPdfSuffix (s : string) : string :=
  if isDotPdf s then EmptyString
  else match s with
       | EmptyString => EmptyString
       | String c r => String c (stripPdfSuffix r)
       end.

(** [(file?.name || "document").replace(/\.pdf$/i, "") + ".with-fields.pdf"];
    [fileName] is [file?.name]. *)
Definition downloadName (fileName : option string) : string :=
  let name := match fileName with
              | Some n => if String.eqb n "" then "document" else n
              | None => "document"
              end in
  stripPdfSuffix name +:+ ".with-fields.pdf".

(* ===================================================================== *)
(** * Vocabulary of the further statements *)
(* ===================================================================== *)

(** The type of an overlay is one of text, date, dropdown, checkbox, radio. *)
Definition knownType (ov : Overlay.t) : Prop :=
  is_Some (typePrefix (Overlay.type ov)).

#[global] Instance knownType_dec (ov : Overlay.t) : Decision (knownType ov).
Proof. unfold knownType. apply _. Defined.

(** The state that the value of an overlay gives its field: text fields
    take the value as text when it tests true, checkboxes are checked and
    radio groups select their option when it tests true. *)
Definition fieldStateFor (ov : Overlay.t) : option FieldState :=
  let v := Overlay.value ov in
  if isTextLike (Overlay.type ov)
  then Some (TextState (if truthy v then Some (ToString v) else None))
  else if String.eqb (Overlay.type ov) "checkbox"
  then Some (CheckState (truthy v))
  else if String.eqb (Overlay.type ov) "radio"
  then Some (RadioState (if truthy v then Some "on" else None))
  else None.




(** [dict.get(key)] through a [.dict] slot; nothing when there is no
    dictionary. *)
Definition dictLookup (h : option DictHolder) (key : string)
  : option PdfObject :=
  match h with
  | Some {| dict := Dict m |} => m !! key
  | _ => None
  end.

(** A page after its own removal step, when that step does not raise. *)
Definition withoutAnnots (page : PdfPage) : PdfPage :=
  match deleteAnnots page with
  | Ok page' => page'
  | Throw _ => page
  end.

Module Sample2.

(** A page whose dictionary slot is malformed. *)
Definition faultyPage : PdfPage := {| node := Some {| dict := FaultyDict |} |}.

(** A three-page document with a form catalog: annotations on the first
    and third page, a malformed second page. *)
Definition mixedDoc : PdfDoc :=
  {| catalog := Some {| dict := Dict {[ "AcroForm" := PdfRef 3;
                                        "Pages" := PdfRef 1 ]} |};
     docPages := [Sample.annotatedPage; faultyPage; Sample.annotatedPage];
     formFields := [] |}.


End Sample2.


(** The ids of a list of overlays, in order. *)
Definition ids (overlays : list Overlay.t) : list string :=
  map Overlay.id overlays.

(** The page index selects one of [n] pages. *)
Definition inRange (n : nat) (ov : Overlay.t) : Prop :=
  (0 ≤ Overlay.pageIndex ov < Z.of_nat n)%Z.

#[global] Instance inRange_dec n ov : Decision (inRange n ov).
Proof. unfold inRange. apply _. Defined.

(** What the editor of the current revision keeps true of its state: every
    overlay sits on one of the pages, checkbox and radio overlays are
    squares, and the selection, if any, names an overlay of the list. *)
Definition wellFormed (st : CurrentUi.State) : Prop :=
  Forall (inRange (length (CurrentUi.pages st))) (CurrentUi.overlays st) ∧
  Forall (λ o, isTick (Overlay.type o) = true →
               Overlay.width o = Overlay.height o) (CurrentUi.overlays st) ∧
  (∀ i, CurrentUi.selectedId st = Some i → i ∈ ids (CurrentUi.overlays st)).

(** A name that ends in ".pdf", in any case of the letters. *)
Definition endsWithDotPdf (name : string) : Prop :=
  ∃ base ext, name = base +:+ ext ∧ isDotPdf ext = true.

(* ===================================================================== *)
(** * Facts about strings *)
(* ===================================================================== *)

Lemma append_String (c : ascii) (s1 s2 : string) :
  String c s1 +:+ s2 = String c (s1 +:+ s2).
Proof. reflexivity. Qed.

Lemma append_Empty (s : string) : "" +:+ s = s.
Proof. reflexivity. Qed.

Lemma prefix_spec (needle hay : string) :
  String.prefix needle hay = true ↔ ∃ post, hay = needle +:+ post.
Proof.
  revert hay. induction needle as [|c needle IH]; intros hay.
  - split; [intros _; by exists hay | intros _; by destruct hay].
  - destruct hay as [|d hay]; cbn [String.prefix].
    + split; [done | intros [post Hp]; discriminate Hp].
    + destruct (Ascii.ascii_dec c d) as [->|Hne].
      * rewrite IH. split.
        -- intros [post ->]. by exists post.
        -- intros [post Hp]. rewrite append_String in Hp.
           injection Hp as ->. by exists post.
      * split; [done |].
        intros [post Hp]. rewrite append_String in Hp.
        injection Hp as <- _. done.
Qed.

Lemma includes_spec (needle hay : string) :
  includes needle hay = true ↔ ∃ pre post, hay = pre +:+ needle +:+ post.
Proof.
  induction hay as [|d hay IH].
  - cbn [includes]. rewrite orb_false_r, prefix_spec. split.
    + intros [post ->]. by exists "", post.
    + intros [pre [post Hp]]. destruct pre as [|c pre]; [|discriminate Hp].
      by exists post.
  - cbn [includes]. rewrite orb_true_iff, prefix_spec, IH. split.
    + intros [[post ->] | (pre & post & ->)].
      * by exists "", post.
      * by exists (String d pre), post.
    + intros (pre & post & Hp). destruct pre as [|c pre].
      * left. by exists post.
      * right. rewrite append_String in Hp. injection Hp as -> ->.
        by exists pre, post.
Qed.

(* ===================================================================== *)
(** * Field-type canonicalisation *)
(* ===================================================================== *)

Example mapPdfJsFieldType_samples :
  mapPdfJsFieldType (JsString "Tx") = "text" ∧
  mapPdfJsFieldType (JsString "Ch") = "dropdown" ∧
  mapPdfJsFieldType (JsString "Sig") = "text" ∧
  mapPdfJsFieldType (JsString "Btn") = "checkbox" ∧
  mapPdfJsFieldType (JsString "RadioButton") = "radio" ∧
  mapPdfJsFieldType (JsString "xRADIO") = "radio" ∧
  mapPdfJsFieldType (JsString "btn") = "text" ∧
  mapPdfJsFieldType (JsString "") = "text" ∧
  mapPdfJsFieldType JsUndefined = "text" ∧
  mapPdfJsFieldType JsNull = "text".
Proof. repeat split; reflexivity. Qed.

(** C4.  [mapPdfJsFieldType] computes the canonicalisation table on every
    input: "Tx" gives text, "Ch" dropdown, "Sig" text, "Btn" checkbox; any
    other code whose lower-cased string contains "radio" gives radio; every
    remaining code, the absent and the empty one included, gives text. *)
Theorem mapPdfJsFieldType_canonical (t : JsValue) :
  mapPdfJsFieldType t = canonical_type_table t.
Proof.
  destruct t as [| |[|]|s]; try reflexivity.
  unfold mapPdfJsFieldType, canonical_type_table.
  cbn [truthy strict_eq_str ToString].
  destruct (String.eqb_spec s "") as [->|_]; [reflexivity|].
  cbn [negb].
  repeat match goal with
  | |- context [String.eqb s ?lit] =>
      destruct (String.eqb_spec s lit) as [->|?]; [reflexivity|]
  end.
  repeat case_decide; try congruence.
  reflexivity.
Qed.

(** The table's default rows, spelled out. *)
Lemma canonical_type_table_absent :
  canonical_type_table JsUndefined = "text" ∧
  canonical_type_table JsNull = "text" ∧
  canonical_type_table (JsString "") = "text".
Proof. repeat split; reflexivity. Qed.

(* ===================================================================== *)
(** * The overlay loop of the re-applicator *)
(* ===================================================================== *)

Lemma index_None {A : Type} (arr : list A) (i : Z) :
  index arr i = None ↔ (i < 0 ∨ Z.of_nat (length arr) ≤ i)%Z.
Proof.
  unfold index. destruct (Z.ltb_spec i 0) as [Hneg|Hpos].
  - split; [intros _; by left | done].
  - rewrite lookup_ge_None. split.
    + intros H. right. lia.
    + intros [H|H]; lia.
Qed.

Lemma index_lockstep {A B : Type} (xs : list A) (ys : list B) (i : Z) :
  length xs = length ys → index xs i = None → index ys i = None.
Proof. rewrite !index_None. intros ->. done. Qed.

Section ApplyFacts.

Variable applyOverlay :
  list PdfPage → list PdfJsPage → list Field → Overlay.t → Result (list Field).

(** The loop body only appends to the form it is given. *)
Hypothesis applyOverlay_frame : ∀ pdfPages pages form ov,
  applyOverlay pdfPages pages form ov =
    (fs ← applyOverlay pdfPages pages [] ov; Ok (form ++ fs)).







End ApplyFacts.




Lemma unknownType_cases (ov : Overlay.t) :
  unknownType ov ↔
  isTextLike (Overlay.type ov) = false ∧
  String.eqb (Overlay.type ov) "checkbox" = false ∧
  String.eqb (Overlay.type ov) "radio" = false.
Proof.
  unfold unknownType, typePrefix.
  destruct (isTextLike _), (String.eqb _ "checkbox"), (String.eqb _ "radio");
    split; try done; intros (? & ? & ?); done.
Qed.









(* ===================================================================== *)
(** * Re-applicator: stored rectangles, names, skipped overlays, bad indices *)
(* ===================================================================== *)






(** The sample checkbox overlay of 30 by 12 pixels converts to 20 by 8
    points; the current revision stores it as a 12 by 12 square, the earlier
    revision as 20 by 12. *)
Example tick30x12_stored :
  let r := convertedRect Sample.tick30x12 Sample.blankPage in
  (Rect.width r == 20)%Q ∧ (Rect.height r == 8)%Q ∧
  (∃ out,
     Current.applyFields (Serialized Sample.flatDoc) [Sample.tick30x12]
       [Sample.blankPage] = Ok out ∧
     ∃ stored, widgetRects (formFields (PDFDocument_load out)) = [stored] ∧
       (Rect.width stored == 12)%Q ∧ (Rect.height stored == 12)%Q) ∧
  (∃ out,
     Earlier.applyFields (Serialized Sample.flatDoc) [Sample.tick30x12]
       [Sample.blankPage] = Ok out ∧
     ∃ stored, widgetRects (formFields (PDFDocument_load out)) = [stored] ∧
       (Rect.width stored == 20)%Q ∧ (Rect.height stored == 12)%Q).
Proof.
  repeat split; try reflexivity.
  - eexists. split; [vm_compute; reflexivity|].
    eexists. split; [vm_compute; reflexivity|]. split; reflexivity.
  - eexists. split; [vm_compute; reflexivity|].
    eexists. split; [vm_compute; reflexivity|]. split; reflexivity.
Qed.





Lemma fieldNameFor_nonempty (ov : Overlay.t) (pre s : string) :
  Overlay.name ov = JsString s → s ≠ "" → fieldNameFor ov pre = JsString s.
Proof. intros Hn Hs. unfold fieldNameFor. rewrite Hn. by case_decide. Qed.

Lemma fieldNameFor_empty (ov : Overlay.t) (pre : string) :
  Overlay.name ov = JsString "" ∨ Overlay.name ov = JsUndefined →
  fieldNameFor ov pre = JsString (pre +:+ Overlay.id ov).
Proof. intros [Hn|Hn]; unfold fieldNameFor; by rewrite Hn. Qed.

Example typePrefix_table :
  typePrefix "text" = Some "Text_" ∧ typePrefix "date" = Some "Text_" ∧
  typePrefix "dropdown" = Some "Text_" ∧ typePrefix "checkbox" = Some "Check_" ∧
  typePrefix "radio" = Some "Radio_" ∧ typePrefix "signature" = None.
Proof. repeat split; reflexivity. Qed.



Example field_names_sample :
  createdNames
    (Current.applyFields (Serialized Sample.flatDoc)
       [Sample.tick30x12; Sample.signature; Sample.textOverlay;
        Sample.overlay "t0" "radio" (JsString "Choice") (JsBool false) 0 1 2 3 4]
       [Sample.blankPage])
  = Some [JsString "Check_new_1"; JsString "Text_new_3"; JsString "Choice"].
Proof. reflexivity. Qed.



Lemma unknownType_spec (ov : Overlay.t) :
  unknownType ov ↔
  Overlay.type ov ≠ "text" ∧ Overlay.type ov ≠ "date" ∧
  Overlay.type ov ≠ "dropdown" ∧ Overlay.type ov ≠ "checkbox" ∧
  Overlay.type ov ≠ "radio".
Proof.
  rewrite unknownType_cases. unfold isTextLike.
  rewrite !orb_false_iff, !String.eqb_neq. tauto.
Qed.



Example skip_sample_completes :
  completes (Current.applyFields (Serialized Sample.flatDoc)
               [Sample.tick30x12; Sample.signature; Sample.textOverlay]
               [Sample.blankPage]) = true ∧
  createdNames (Current.applyFields (Serialized Sample.flatDoc)
               [Sample.tick30x12; Sample.signature; Sample.textOverlay]
               [Sample.blankPage])
  = Some [JsString "Check_new_1"; JsString "Text_new_3"].
Proof. split; reflexivity. Qed.

(* --------------------------------------------------------------------- *)









(** Two page handles for a one-page document: a text overlay on the second
    handle still fails, inside the library's [addToPage]. *)
Example typed_overlay_outside_lockstep :
  ∃ msg, Current.applyFields (Serialized Sample.flatDoc)
           [Sample.overlay "new_6" "text" (JsString "") (JsString "") 1 0 0 9 9]
           [Sample.blankPage; Sample.blankPage]
         = Throw (LibraryError msg).
Proof. eexists. reflexivity. Qed.

(** The exception of the sample run is the [TypeError] of the missing page
    handle. *)
Example stray_overlay_TypeError :
  ∃ msg, Current.applyFields (Serialized Sample.flatDoc)
           [Sample.tick30x12; Sample.strayOverlay] [Sample.blankPage]
         = Throw (TypeError msg).
Proof. eexists. reflexivity. Qed.

(** An overlay of an unknown type is no exception: its page handle is
    looked up before the type is inspected. *)
Example unknown_type_stray_raises :
  ∃ msg, Current.applyFields (Serialized Sample.flatDoc)
           [Sample.straySignature] [Sample.blankPage]
         = Throw (TypeError msg).
Proof. eexists. reflexivity. Qed.

(** The one case left out: outside of the lockstep contract, with two page
    handles for a one-page document, an overlay of an unknown type that
    points at the second page passes unnoticed. *)
Example unknown_type_outside_lockstep :
  outOfRange (docPages Sample.flatDoc) Sample.straySignature ∧
  Current.applyFields (Serialized Sample.flatDoc) [Sample.straySignature]
    [Sample.blankPage; Sample.blankPage]
  = Ok (Serialized Sample.flatDoc).
Proof. split; [right; cbn; lia | reflexivity]. Qed.

(* ===================================================================== *)
(** * Widget extractor *)
(* ===================================================================== *)

Section ExtractFacts.

Variable widgetOverlay : nat → Viewport → nat → Annotation → Overlay.t.

Lemma forEach_push_spec i viewport idx anns extracted :
  forEach_push widgetOverlay i viewport idx anns extracted =
    extracted ++ imap (λ j a, widgetOverlay i viewport (idx + j) a) anns.
Proof.
  revert idx extracted.
  induction anns as [|a anns IH]; intros idx extracted.
  - cbn. by rewrite app_nil_r.
  - cbn [forEach_push]. rewrite IH, imap_cons, <- app_assoc. cbn [app].
    rewrite Nat.add_0_r. do 2 f_equal.
    apply imap_ext. intros j b _. cbn. f_equal. lia.
Qed.

Lemma forPages_extract_spec i rest pageList extracted :
  forPages_extract widgetOverlay i rest pageList extracted =
    (pageList ++ rest,
     extracted ++
       concat (imap (λ k page,
                 imap (λ idx a,
                   widgetOverlay (i + k) (pageViewport page) idx a)
                   (pageWidgets page)) rest)).
Proof.
  revert i pageList extracted.
  induction rest as [|page rest IH]; intros i pageList extracted.
  - cbn. by rewrite !app_nil_r.
  - cbn [forPages_extract]. rewrite IH, forEach_push_spec, imap_cons.
    cbn [concat]. rewrite <- !app_assoc. cbn [app].
    rewrite Nat.add_0_r. f_equal. f_equal. f_equal.
    f_equal. apply imap_ext. intros k pg _. cbn.
    apply imap_ext. intros j b _. f_equal. lia.
Qed.

(** The loops produce the page list and one overlay per widget. *)
Lemma extractFieldsWithPdfJs_spec pdf :
  extractFieldsWithPdfJs widgetOverlay pdf
    = (pdf, overlaysOfWidgets widgetOverlay pdf).
Proof.
  unfold extractFieldsWithPdfJs. by rewrite forPages_extract_spec.
Qed.

End ExtractFacts.

Lemma Current_follows_square :
  follows_size_policy Current.widgetOverlay sizePolicy_square.
Proof.
  intros i viewport idx a ov r. subst ov r.
  unfold Current.widgetOverlay, sizePolicy_square, isTick, canonicalType.
  destruct (String.eqb _ "checkbox" || String.eqb _ "radio");
    cbn; repeat split; reflexivity.
Qed.

Lemma Earlier_follows_uniform :
  follows_size_policy Earlier.widgetOverlay sizePolicy_uniform.
Proof.
  intros i viewport idx a ov r. subst ov r.
  unfold Earlier.widgetOverlay, sizePolicy_uniform, canonicalType.
  cbn; repeat split; reflexivity.
Qed.

(** The sample checkbox widget of 20 by 8 points converts to 30 by 12
    pixels; the current revision extracts it as 12 by 12, the earlier one
    as 40 by 20. *)
Example flatTick_extracted :
  let r := pdfRectToViewportRect (rect Sample.flatTick) Sample.letterViewport in
  let c := Current.widgetOverlay 1 Sample.letterViewport 0 Sample.flatTick in
  let e := Earlier.widgetOverlay 1 Sample.letterViewport 0 Sample.flatTick in
  canonicalType Sample.flatTick = "checkbox" ∧
  (Rect.width r == 30)%Q ∧ (Rect.height r == 12)%Q ∧
  (Overlay.width c == 12)%Q ∧ (Overlay.height c == 12)%Q ∧
  (Overlay.width e == 40)%Q ∧ (Overlay.height e == 20)%Q.
Proof. repeat split; reflexivity. Qed.

(** C3, as stated, fails on the current revision: the checkbox widget of
    20 by 8 points is not given independently clamped dimensions
    (30 by 12 pixels). *)
Lemma extract_tick_not_clamped_each :
  ¬ follows_size_policy Current.widgetOverlay sizePolicy_claimed.
Proof.
  intros H.
  destruct (H 1%nat Sample.letterViewport 0%nat Sample.flatTick)
    as (_ & _ & _ & Hw & _).
  vm_compute in Hw. discriminate Hw.
Qed.

(** The same input refutes the statement on the earlier revision. *)
Lemma extract_tick_Earlier_policy_differs :
  ¬ follows_size_policy Earlier.widgetOverlay sizePolicy_claimed.
Proof.
  intros H.
  destruct (H 1%nat Sample.letterViewport 0%nat Sample.flatTick)
    as (_ & _ & _ & Hw & _).
  vm_compute in Hw. discriminate Hw.
Qed.

(** C3 (amended).  The extractor produces one overlay per widget
    annotation.  In the current revision an overlay of canonical type
    checkbox or radio is a square of side max(12, min(width, height)) of the
    converted rectangle, and an overlay of any other type has the converted
    width clamped to at least 40 and the converted height clamped to at
    least 20.  In the earlier revision every overlay, whatever its type, has
    the width clamped to at least 40 and the height to at least 20. *)
Theorem extract_size_policy :
  follows_size_policy Current.widgetOverlay sizePolicy_square ∧
  follows_size_policy Earlier.widgetOverlay sizePolicy_uniform ∧
  (∀ pdf,
     Current.extractFieldsWithPdfJs pdf
       = (pdf, overlaysOfWidgets Current.widgetOverlay pdf) ∧
     Earlier.extractFieldsWithPdfJs pdf
       = (pdf, overlaysOfWidgets Earlier.widgetOverlay pdf)) ∧
  (∀ ty r,
     sizePolicy_square ty r =
       if isTick ty
       then (Qmax 12 (Qmin (Rect.width r) (Rect.height r)),
             Qmax 12 (Qmin (Rect.width r) (Rect.height r)))
       else sizePolicy_claimed ty r).
Proof.
  split; [exact Current_follows_square|].
  split; [exact Earlier_follows_uniform|].
  split.
  - intros pdf. split; apply extractFieldsWithPdfJs_spec.
  - intros ty r. unfold sizePolicy_square, sizePolicy_claimed.
    by destruct (isTick ty).
Qed.

(* --------------------------------------------------------------------- *)

(** C5, as stated, fails: the sample checkbox widget has no current value,
    and its overlay's value is the empty string, not [false]. *)
Lemma extract_absent_tick_value_not_false :
  canonicalType Sample.flatTick = "checkbox" ∧
  fieldValue Sample.flatTick = JsUndefined ∧
  Overlay.value (Current.widgetOverlay 1 Sample.letterViewport 0 Sample.flatTick)
    = JsString "" ∧
  Overlay.value (Current.widgetOverlay 1 Sample.letterViewport 0 Sample.flatTick)
    ≠ value_claimed (canonicalType Sample.flatTick)
        (fieldValue Sample.flatTick).
Proof. repeat split; try reflexivity. discriminate. Qed.

(** C5 (amended).  The overlay's value is the widget's current field value
    when that is neither [undefined] nor [null], and the empty string
    otherwise, for every canonical type: it is the value the specification
    gives for text, date and dropdown, also when the canonical type is
    checkbox or radio.  The empty string tests false, like [false]. *)
Theorem extract_value (i : nat) (viewport : Viewport) (idx : nat)
    (a : Annotation) :
  let c := Current.widgetOverlay i viewport idx a in
  let e := Earlier.widgetOverlay i viewport idx a in
  Overlay.value c = value_claimed "text" (fieldValue a) ∧
  Overlay.value e = value_claimed "text" (fieldValue a) ∧
  value_claimed "text" (fieldValue a) =
    match fieldValue a with
    | JsUndefined | JsNull => JsString ""
    | v => v
    end ∧
  value_claimed "date" (fieldValue a) = value_claimed "text" (fieldValue a) ∧
  value_claimed "dropdown" (fieldValue a) = value_claimed "text" (fieldValue a) ∧
  truthy (JsString "") = truthy (JsBool false).
Proof.
  cbn zeta. unfold Current.widgetOverlay, Earlier.widgetOverlay.
  destruct (String.eqb _ "checkbox" || String.eqb _ "radio");
    cbn [Overlay.value]; destruct (fieldValue a); repeat split; reflexivity.
Qed.

(* --------------------------------------------------------------------- *)
(** ** Overlay ids *)

Lemma before_append (c : ascii) (s r : string) :
  occurs c s = false → before c (s +:+ String c r) = s.
Proof.
  induction s as [|d s IH]; rewrite ?append_String, ?append_Empty; cbn.
  - by rewrite Ascii.eqb_refl.
  - intros H. apply orb_false_iff in H as [Hd Hs]. rewrite Hd.
    by rewrite IH.
Qed.

Lemma after_append (c : ascii) (s r : string) :
  occurs c s = false → after c (s +:+ String c r) = r.
Proof.
  induction s as [|d s IH]; rewrite ?append_String, ?append_Empty; cbn.
  - by rewrite Ascii.eqb_refl.
  - intros H. apply orb_false_iff in H as [Hd Hs]. rewrite Hd.
    by rewrite IH.
Qed.

Lemma string_of_uint_digits (d : Decimal.uint) :
  occurs "_" (NilEmpty.string_of_uint d) = false.
Proof. induction d; cbn; done. Qed.

Lemma decimal_no_underscore (n : nat) : occurs "_" (decimal n) = false.
Proof. apply string_of_uint_digits. Qed.

Lemma decimal_inj (n m : nat) : decimal n = decimal m → n = m.
Proof.
  unfold decimal. intros H. apply Unsigned.to_uint_inj.
  apply (f_equal NilEmpty.uint_of_string) in H.
  rewrite !NilEmpty.usu in H. by injection H.
Qed.

Example decimal_samples :
  decimal 0 = "0" ∧ decimal 7 = "7" ∧ decimal 10 = "10" ∧ decimal 123 = "123".
Proof. repeat split; reflexivity. Qed.

Lemma idKey_template (i idx : nat) (rest : string) :
  idKey (decimal i +:+ "_" +:+ decimal idx +:+ "_" +:+ rest)
    = (decimal i, decimal idx).
Proof.
  unfold idKey.
  change ("_" +:+ decimal idx +:+ "_" +:+ rest)
    with (String "_" (decimal idx +:+ String "_" rest)).
  rewrite before_append, after_append by apply decimal_no_underscore.
  by rewrite before_append by apply decimal_no_underscore.
Qed.

Lemma NoDup_imap_inj {A B : Type} (g : nat → A → B) (l : list A) :
  (∀ j1 x1 j2 x2, g j1 x1 = g j2 x2 → j1 = j2) → NoDup (imap g l).
Proof.
  intros Hinj. apply NoDup_alt. intros j1 j2 y.
  rewrite !list_lookup_imap.
  destruct (l !! j1) as [x1|]; [|done]. destruct (l !! j2) as [x2|]; [|done].
  cbn. intros [= <-] [= H]. symmetry. by eapply Hinj.
Qed.

Lemma elem_of_concat_imap {A B : Type} (f : nat → A → list B) (l : list A) y :
  y ∈ concat (imap f l) → ∃ k x, l !! k = Some x ∧ y ∈ f k x.
Proof.
  rewrite list_elem_of_In, in_concat. intros (ys & Hys & Hy).
  apply list_elem_of_In, elem_of_lookup_imap in Hys as (k & x & -> & Hk).
  exists k, x. by rewrite list_elem_of_In.
Qed.

Lemma NoDup_concat_imap {A B : Type} (f : nat → A → list B) (l : list A) :
  (∀ k x, NoDup (f k x)) →
  (∀ k1 x1 k2 x2 y, y ∈ f k1 x1 → y ∈ f k2 x2 → k1 = k2) →
  NoDup (concat (imap f l)).
Proof.
  revert f. induction l as [|x l IH]; intros f Hnd Hsep.
  - constructor.
  - rewrite imap_cons. cbn [concat]. apply NoDup_app. split; [apply Hnd|].
    split.
    + intros y Hy Hy'.
      apply elem_of_concat_imap in Hy' as (k & x' & _ & Hy').
      cbn in Hy'. by specialize (Hsep _ _ _ _ _ Hy Hy').
    + apply IH.
      * intros k x'. apply Hnd.
      * intros k1 x1 k2 x2 y H1 H2. cbn in H1, H2.
        specialize (Hsep _ _ _ _ _ H1 H2). lia.
Qed.

Section UniqueIds.

Variable widgetOverlay : nat → Viewport → nat → Annotation → Overlay.t.

(** Ids are built by the template [`${i}_${idx}_${name}`]. *)
Hypothesis id_template : ∀ i viewport idx a, ∃ name,
  Overlay.id (widgetOverlay i viewport idx a)
    = decimal i +:+ "_" +:+ decimal idx +:+ "_" +:+ name.

Lemma id_determines_position i1 v1 j1 a1 i2 v2 j2 a2 :
  Overlay.id (widgetOverlay i1 v1 j1 a1)
    = Overlay.id (widgetOverlay i2 v2 j2 a2) →
  i1 = i2 ∧ j1 = j2.
Proof.
  destruct (id_template i1 v1 j1 a1) as [n1 ->].
  destruct (id_template i2 v2 j2 a2) as [n2 ->].
  intros H. apply (f_equal idKey) in H. rewrite !idKey_template in H.
  injection H as Hi Hj. split; by apply decimal_inj.
Qed.

Lemma overlaysOfWidgets_ids_NoDup pdf :
  NoDup (map Overlay.id (overlaysOfWidgets widgetOverlay pdf)).
Proof.
  unfold overlaysOfWidgets.
  rewrite concat_map.
  change (map (map Overlay.id)) with (fmap (M := list) (map Overlay.id)).
  rewrite fmap_imap.
  apply NoDup_concat_imap.
  - intros k page. cbn.
    change (map Overlay.id) with (fmap (M := list) Overlay.id).
    rewrite fmap_imap. apply NoDup_imap_inj.
    intros j1 a1 j2 a2 H. cbn in H.
    by apply id_determines_position in H as [_ ?].
  - intros k1 p1 k2 p2 y. cbn.
    change (map Overlay.id) with (fmap (M := list) Overlay.id).
    rewrite !fmap_imap.
    intros (j1 & a1 & -> & _)%elem_of_lookup_imap
           (j2 & a2 & H & _)%elem_of_lookup_imap.
    cbn in H. apply id_determines_position in H as [? _]. lia.
Qed.

End UniqueIds.

Lemma Current_id_template i viewport idx a : ∃ name,
  Overlay.id (Current.widgetOverlay i viewport idx a)
    = decimal i +:+ "_" +:+ decimal idx +:+ "_" +:+ name.
Proof.
  unfold Current.widgetOverlay.
  destruct (String.eqb _ "checkbox" || String.eqb _ "radio");
    eexists; reflexivity.
Qed.

Lemma Earlier_id_template i viewport idx a : ∃ name,
  Overlay.id (Earlier.widgetOverlay i viewport idx a)
    = decimal i +:+ "_" +:+ decimal idx +:+ "_" +:+ name.
Proof. unfold Earlier.widgetOverlay. eexists; reflexivity. Qed.

(** C9.  In one extraction run over a loaded document, with any number of
    pages and any annotations per page, the ids of the produced overlays
    are pairwise distinct; in both revisions. *)
Theorem extract_ids_distinct (pdf : list PdfJsPage) :
  NoDup (map Overlay.id (snd (Current.extractFieldsWithPdfJs pdf))) ∧
  NoDup (map Overlay.id (snd (Earlier.extractFieldsWithPdfJs pdf))).
Proof.
  unfold Current.extractFieldsWithPdfJs, Earlier.extractFieldsWithPdfJs.
  rewrite !extractFieldsWithPdfJs_spec. cbn [snd]. split.
  - apply overlaysOfWidgets_ids_NoDup, Current_id_template.
  - apply overlaysOfWidgets_ids_NoDup, Earlier_id_template.
Qed.

Example fixture_ids :
  map Overlay.id (snd (Current.extractFieldsWithPdfJs
                         [Sample.fixturePage; Sample.fixturePage]))
  = ["1_0_Name"; "1_1_Agree"; "2_0_Name"; "2_1_Agree"].
Proof. reflexivity. Qed.

(* ===================================================================== *)
(** * Form flattener: the hard-delete phase *)
(* ===================================================================== *)

Lemma deleteAcroForm_faulty pdfDoc :
  faultySlot (catalog pdfDoc) = true → ∃ e, deleteAcroForm pdfDoc = Throw e.
Proof.
  unfold deleteAcroForm, PdfLib.dict_delete.
  destruct (catalog pdfDoc) as [[[]]|]; cbn; try done. eauto.
Qed.

Lemma deleteAcroForm_sound pdfDoc :
  faultySlot (catalog pdfDoc) = false →
  ∃ d', deleteAcroForm pdfDoc = Ok d' ∧ has_AcroForm d' = false ∧
        docPages d' = docPages pdfDoc ∧ formFields d' = formFields pdfDoc.
Proof.
  unfold deleteAcroForm, PdfLib.dict_delete, has_AcroForm.
  destruct pdfDoc as [[[[|m|]]|] ps fs]; cbn; try done.
  - eexists. split; [reflexivity|]. done.
  - intros _. eexists. split; [reflexivity|]. cbn.
    rewrite (lookup_delete_eq m "AcroForm"). split; [|done].
    apply bool_decide_eq_false. by intros [? ?].
  - eexists. split; [reflexivity|]. done.
Qed.

Lemma deleteAnnots_sound page :
  faultySlot (node page) = false →
  ∃ page', deleteAnnots page = Ok page' ∧ has_Annots page' = false.
Proof.
  unfold deleteAnnots, PdfLib.dict_delete, has_Annots.
  destruct page as [[[[|m|]]|]]; cbn; try done.
  - eexists. split; [reflexivity|]. done.
  - intros _. eexists. split; [reflexivity|]. cbn.
    rewrite (lookup_delete_eq m "Annots").
    apply bool_decide_eq_false. by intros [? ?].
  - eexists. split; [reflexivity|]. done.
Qed.

Lemma deleteAnnots_absent page :
  faultySlot (node page) = false → has_Annots page = false →
  deleteAnnots page = Ok page.
Proof.
  unfold deleteAnnots, PdfLib.dict_delete, has_Annots.
  destruct page as [[[[|m|]]|]]; cbn; try done.
  intros _ H. apply bool_decide_eq_false in H.
  rewrite delete_id; [done|]. by apply eq_None_not_Some.
Qed.

Lemma deleteAcroForm_absent pdfDoc :
  faultySlot (catalog pdfDoc) = false → has_AcroForm pdfDoc = false →
  deleteAcroForm pdfDoc = Ok pdfDoc.
Proof.
  unfold deleteAcroForm, PdfLib.dict_delete, has_AcroForm.
  destruct pdfDoc as [[[[|m|]]|] ps fs]; cbn; try done.
  intros _ H. apply bool_decide_eq_false in H.
  rewrite delete_id; [done|]. by apply eq_None_not_Some.
Qed.

Lemma forPages_deleteAnnots_faultless ps :
  Forall (λ page, faultySlot (node page) = false) ps →
  forPages_deleteAnnots ps =
    (map (λ page, match deleteAnnots page with
                  | Ok page' => page'
                  | Throw _ => page
                  end) ps, None).
Proof.
  induction 1 as [|page ps Hpage _ IH]; [done|].
  cbn [forPages_deleteAnnots map].
  destruct (deleteAnnots_sound page Hpage) as (page' & -> & _).
  by rewrite IH.
Qed.

Lemma forPages_deleteAnnots_absent ps :
  Forall (λ page, faultySlot (node page) = false) ps →
  Forall (λ page, has_Annots page = false) ps →
  forPages_deleteAnnots ps = (ps, None).
Proof.
  induction 1 as [|page ps Hpage _ IH]; [done|].
  intros [Hp Hps]%Forall_cons. cbn [forPages_deleteAnnots].
  rewrite deleteAnnots_absent by done. by rewrite IH.
Qed.

(** The loop over the pages stops at the first page whose removal raises:
    that page and all later ones keep their annotations. *)
Lemma forPages_deleteAnnots_stops ps1 page ps2 :
  Forall (λ page, faultySlot (node page) = false) ps1 →
  faultySlot (node page) = true →
  ∃ e, forPages_deleteAnnots (ps1 ++ page :: ps2) =
         (map (λ p, match deleteAnnots p with
                    | Ok p' => p'
                    | Throw _ => p
                    end) ps1 ++ page :: ps2, Some e).
Proof.
  intros H1 Hpage. induction H1 as [|p ps1 Hp _ (e & IH)].
  - cbn. unfold deleteAnnots, PdfLib.dict_delete.
    destruct page as [[[[|m|]]|]]; cbn in *; try done. eauto.
  - exists e. cbn [app forPages_deleteAnnots map].
    destruct (deleteAnnots_sound p Hp) as (p' & -> & _). by rewrite IH.
Qed.

(** The sample document with a malformed catalog keeps the annotations of
    its page; independent removals would have cleared them. *)
Example faultyCatalog_keeps_Annots :
  hardDelete Sample.faultyCatalogDoc
    = (Sample.faultyCatalogDoc, Some (TypeError "dict.delete is not a function")) ∧
  map has_Annots (docPages (fst (hardDelete Sample.faultyCatalogDoc))) = [true] ∧
  map has_Annots (docPages (hardDelete_independent Sample.faultyCatalogDoc))
    = [false].
Proof. repeat split; reflexivity. Qed.

(** C7, as stated, fails: with a form catalog whose removal raises, the
    per-page removals are not attempted, and the outcome differs from that
    of independent removals. *)
Lemma hardDelete_not_independent :
  ¬ (∀ pdfDoc, fst (hardDelete pdfDoc) = hardDelete_independent pdfDoc).
Proof.
  intros H. specialize (H Sample.faultyCatalogDoc).
  apply (f_equal (λ d, map has_Annots (docPages d))) in H.
  vm_compute in H. discriminate H.
Qed.

(** C7 (amended).  The two removals of the hard-delete phase share one
    guarded block.  Absence of the form-catalog entry and of the
    annotations-list entries is a no-op that raises nothing.  The
    form-catalog removal runs first, so no failure of a per-page removal
    can prevent it.  When no removal raises, the outcome is that of
    independent removals.  When the form-catalog removal raises, the
    exception is swallowed and the per-page removals are not attempted: the
    document is left as loaded. *)
Theorem hardDelete_shared_guard (pdfDoc : PdfDoc) :
  (faultySlot (catalog pdfDoc) = false → formless pdfDoc →
   Forall (λ page, faultySlot (node page) = false) (docPages pdfDoc) →
   hardDelete pdfDoc = (pdfDoc, None)) ∧
  (faultySlot (catalog pdfDoc) = false →
   has_AcroForm (fst (hardDelete pdfDoc)) = false) ∧
  (faultless pdfDoc →
   hardDelete pdfDoc = (hardDelete_independent pdfDoc, None) ∧
   formless (hardDelete_independent pdfDoc)) ∧
  (faultySlot (catalog pdfDoc) = true →
   ∃ e, hardDelete pdfDoc = (pdfDoc, Some e)).
Proof.
  split; [|split; [|split]].
  - intros Hc [Hform Hannots] Hpages. unfold hardDelete.
    rewrite deleteAcroForm_absent by done.
    rewrite forPages_deleteAnnots_absent by done. by destruct pdfDoc.
  - intros Hc. unfold hardDelete.
    destruct (deleteAcroForm_sound pdfDoc Hc) as (d' & -> & Hd' & _ & _).
    destruct (forPages_deleteAnnots (docPages d')) as [ps e]. cbn.
    unfold has_AcroForm in *. exact Hd'.
  - intros [Hc Hpages]. unfold hardDelete, hardDelete_independent.
    destruct (deleteAcroForm_sound pdfDoc Hc) as (d' & -> & Hd' & Hps & Hfs).
    rewrite Hps, Hfs, forPages_deleteAnnots_faultless by done.
    split; [done|]. split; [exact Hd'|]. cbn.
    apply Forall_map. eapply Forall_impl; [exact Hpages|].
    intros page Hpage. cbn.
    by destruct (deleteAnnots_sound page Hpage) as (page' & -> & ?).
  - intros Hc. unfold hardDelete.
    destruct (deleteAcroForm_faulty pdfDoc Hc) as [e ->]. by exists e.
Qed.

Lemma hardDelete_shared_guard_witness :
  (∃ e, hardDelete Sample.faultyCatalogDoc = (Sample.faultyCatalogDoc, Some e)) ∧
  hardDelete Sample.flatDoc = (Sample.flatDoc, None).
Proof.
  split.
  - destruct (hardDelete_shared_guard Sample.faultyCatalogDoc)
      as (_ & _ & _ & Hfaulty).
    apply Hfaulty. reflexivity.
  - destruct (hardDelete_shared_guard Sample.flatDoc) as (Habsent & _).
    apply Habsent.
    + reflexivity.
    + split; [reflexivity | repeat constructor].
    + repeat constructor.
Defined.

(** Whatever the library's flatten step does, [flattenWithPdfLib] returns
    bytes; a raising flatten step leaves the document of phase 1. *)
Lemma flattenWithPdfLib_fallback_swallowed form_flatten originalBytes e :
  form_flatten (fst (hardDelete (PDFDocument_load originalBytes))) = Throw e →
  flattenWithPdfLib form_flatten originalBytes
    = save (fst (hardDelete (PDFDocument_load originalBytes))).
Proof. intros H. unfold flattenWithPdfLib, flattenFallback. by rewrite H. Qed.

(* ===================================================================== *)
(** * Coordinate transform in exact arithmetic *)
(* ===================================================================== *)

(** The statements of this section are about the rational model of the
    pdf.js viewport.  They say nothing about the rounding of doubles. *)

(** One axis: an affine map of slope [a], the min / abs normalisation on
    its far side, the inverse map, and the normalisation again. *)
Lemma roundtrip_1d (a t w p1 p2 q1 q2 : Q) :
  (a == 3 # 2 ∨ a == - (3 # 2) ∨ a == 2 # 3 ∨ a == - (2 # 3))%Q →
  (0 <= w)%Q →
  (a * (p2 - p1) == w)%Q →
  (q1 == a * (Qmin p1 p2 - p1) + t)%Q →
  (q2 == a * (Qmin p1 p2 + Qabs (p2 - p1) - p1) + t)%Q →
  (Qmin q1 q2 == t)%Q ∧ (Qabs (q2 - q1) == w)%Q.
Proof.
  intros Ha Hw H1 Hq1 Hq2.
  revert Hq2. pattern (Qabs (p2 - p1)). apply Qabs_case; intros Hd Hq2;
  destruct (Q.min_spec p1 p2) as [[? Hm]|[? Hm]];
  destruct (Q.min_spec q1 q2) as [[? Hn]|[? Hn]];
  rewrite Hm in Hq1, Hq2; rewrite Hn;
  pattern (Qabs (q2 - q1)); apply Qabs_case; intros Hd';
  destruct Ha as [Ha|[Ha|[Ha|Ha]]]; rewrite Ha in *; split; lra.
Qed.

Ltac axis_with a t w p1 p2 q1 q2 :=
  destruct (roundtrip_1d a t w p1 p2 q1 q2) as [? ?];
  [ by (left + (right; left) + (right; right; left) + (right; right; right))
  | assumption | by field | by field | by field | ].

Ltac axis t w p1 p2 q1 q2 :=
  first [ axis_with (3 # 2)%Q t w p1 p2 q1 q2
        | axis_with (- (3 # 2))%Q t w p1 p2 q1 q2
        | axis_with (2 # 3)%Q t w p1 p2 q1 q2
        | axis_with (- (2 # 3))%Q t w p1 p2 q1 q2 ].

Ltac reduce_viewport Hrot v0 v1 v2 v3 :=
  unfold viewportRoundTrip, pdfRoundTrip,
    pdfRectToViewportRect, viewportToPdfRectFromViewportRect,
    PdfJs.PageViewport, PdfJs.transform,
    PdfJs.applyTransform, PdfJs.applyInverseTransform, SCALE;
  repeat (apply elem_of_cons in Hrot as [->|Hrot]);
  [| | | |by apply elem_of_nil in Hrot];
  cbn [convertToPdfPoint convertToViewportRectangle Z.eqb Pos.eqb];
  [ change (Qeq_bool 1 0) with false
  | change (Qeq_bool 0 0) with true
  | change (Qeq_bool (- (1)) 0) with false
  | change (Qeq_bool 0 0) with true ];
  cbv beta iota zeta; cbn [fst snd Rect.x Rect.y Rect.width Rect.height];
  generalize (Qabs ((v2 + v0) / 2 - v0)); intros ox;
  generalize (Qabs ((v3 + v1) / 2 - v1)); intros oy.

(** Viewport to PDF and back is the identity on rectangles of non-negative
    width and height, for the four axis-aligned rotations at scale 1.5. *)
Lemma viewportRoundTrip_exact (viewBox : RectArray) (rotation : Z)
    (vx vy vw vh : Q) :
  rotation ∈ [0; 90; 180; 270]%Z →
  (0 <= vw)%Q → (0 <= vh)%Q →
  let back := viewportRoundTrip (Rect.mk vx vy vw vh)
                (PdfJs.PageViewport viewBox SCALE rotation) in
  (Rect.x back == vx)%Q ∧ (Rect.y back == vy)%Q ∧
  (Rect.width back == vw)%Q ∧ (Rect.height back == vh)%Q.
Proof.
  intros Hrot Hw Hh. destruct viewBox as [[[v0 v1] v2] v3].
  cbv zeta. reduce_viewport Hrot v0 v1 v2 v3.
  all: match goal with
  | |- (Qmin ?R0 ?R2 == _ ∧ Qmin ?R1 ?R3 == _ ∧ _)%Q =>
      match R0 with
      | (Qmin ?px1 ?px2 * _ + Qmin ?py1 ?py2 * _ + _)%Q =>
          first [ axis vx vw px1 px2 R0 R2; axis vy vh py1 py2 R1 R3
                | axis vx vw py1 py2 R0 R2; axis vy vh px1 px2 R1 R3 ]
      end
  end; done.
Qed.

(** PDF to viewport and back, likewise. *)
Lemma pdfRoundTrip_exact (viewBox : RectArray) (rotation : Z) (x y w h : Q) :
  rotation ∈ [0; 90; 180; 270]%Z →
  (0 <= w)%Q → (0 <= h)%Q →
  let back := pdfRoundTrip (Rect.mk x y w h)
                (PdfJs.PageViewport viewBox SCALE rotation) in
  (Rect.x back == x)%Q ∧ (Rect.y back == y)%Q ∧
  (Rect.width back == w)%Q ∧ (Rect.height back == h)%Q.
Proof.
  intros Hrot Hw Hh. destruct viewBox as [[[v0 v1] v2] v3].
  cbv zeta. reduce_viewport Hrot v0 v1 v2 v3.
  all: match goal with
  | |- (Qmin ?P0 ?P2 == _ ∧ Qmin ?P1 ?P3 == _ ∧ _)%Q =>
      match P0 with
      | ((Qmin ?rx1 ?rx2 * _ - Qmin ?ry1 ?ry2 * _ + _ - _) / _)%Q =>
          first [ axis x w rx1 rx2 P0 P2; axis y h ry1 ry2 P1 P3
                | axis x w ry1 ry2 P0 P2; axis y h rx1 rx2 P1 P3 ]
      end
  end; done.
Qed.

(** The self-test's rectangle: no drift in exact arithmetic. *)
Example selftest_roundtrip :
  (drift (viewportRoundTrip (Rect.mk 100 150 120 30) Sample.letterViewport)
         (Rect.mk 100 150 120 30) == 0)%Q.
Proof. reflexivity. Qed.

(** A rectangle of negative width comes back normalised, not as it was. *)
Example negative_width_roundtrip :
  let back := viewportRoundTrip (Rect.mk 100 150 (- (20)) 30)
                Sample.letterViewport in
  (Rect.x back == 80)%Q ∧ (Rect.width back == 20)%Q ∧
  (drift back (Rect.mk 100 150 (- (20)) 30) == 60)%Q.
Proof. repeat split; reflexivity. Qed.

(* ===================================================================== *)
(** * Further properties of the pipeline and of the editor *)
(* ===================================================================== *)
(* ===================================================================== *)
(** * Further properties: conversions and canonical types *)
(* ===================================================================== *)



Lemma mapPdfJsFieldType_cases (t : JsValue) :
  mapPdfJsFieldType t ∈ ["text"; "dropdown"; "checkbox"; "radio"] ∧
  (mapPdfJsFieldType t = "checkbox" ↔ t = JsString "Btn") ∧
  (mapPdfJsFieldType t = "dropdown" ↔ t = JsString "Ch").
Proof.
  unfold mapPdfJsFieldType.
  destruct t as [| |[|]|s]; cbn [truthy negb strict_eq_str];
    try (split; [set_solver | split; split; (done || congruence)]).
  destruct (String.eqb_spec s "") as [->|_]; cbn [negb];
    [split; [set_solver | split; split; (done || congruence)]|].
  repeat match goal with
  | |- context [String.eqb s ?lit] =>
      destruct (String.eqb_spec s lit) as [->|?];
      [split; [set_solver | split; split; (done || congruence)]|]
  end.
  destruct (includes _ _);
    (split; [set_solver | split; split; (done || congruence)]).
Qed.

Lemma mapPdfJsFieldType_known (t : JsValue) :
  is_Some (typePrefix (mapPdfJsFieldType t)).
Proof.
  destruct (mapPdfJsFieldType_cases t) as (Hin & _).
  repeat (apply elem_of_cons in Hin as [->|Hin]); try (by eexists).
  by apply elem_of_nil in Hin.
Qed.

(** X2.  [mapPdfJsFieldType] only ever returns text, dropdown, checkbox or
    radio, all of them types that [applyFields] creates a field for, and
    never date; it returns checkbox for the code "Btn" alone and dropdown
    for the code "Ch" alone. *)
Theorem mapPdfJsFieldType_range (t : JsValue) :
  mapPdfJsFieldType t ∈ ["text"; "dropdown"; "checkbox"; "radio"] ∧
  mapPdfJsFieldType t ≠ "date" ∧
  is_Some (typePrefix (mapPdfJsFieldType t)) ∧
  (mapPdfJsFieldType t = "checkbox" ↔ t = JsString "Btn") ∧
  (mapPdfJsFieldType t = "dropdown" ↔ t = JsString "Ch").
Proof.
  destruct (mapPdfJsFieldType_cases t) as (Hin & Hc & Hd).
  split_and!; try done; [|apply mapPdfJsFieldType_known].
  intros Hdate. rewrite Hdate in Hin.
  repeat (apply elem_of_cons in Hin as [Hin|Hin]; [discriminate Hin|]).
  by apply elem_of_nil in Hin.
Qed.

(* ===================================================================== *)
(** * Further properties: the extractor *)
(* ===================================================================== *)

Lemma length_concat_imap {A B : Type} (f : nat → A → list B) (l : list A) :
  length (concat (imap f l)) = sum_list (imap (λ k x, length (f k x)) l).
Proof.
  revert f. induction l as [|x l IH]; intros f; [done|].
  rewrite !imap_cons. cbn [concat sum_list sum_list_with].
  rewrite length_app, IH. done.
Qed.

Lemma filter_concat {A : Type} (P : A → Prop) `{∀ x, Decision (P x)}
    (ls : list (list A)) :
  filter P (concat ls) = concat (map (filter P) ls).
Proof.
  induction ls as [|l ls IH]; [done|].
  cbn [concat map]. by rewrite filter_app, IH.
Qed.

Lemma filter_all {A : Type} (P : A → Prop) `{∀ x, Decision (P x)}
    (l : list A) :
  Forall P l → filter P l = l.
Proof.
  induction 1 as [|x l Hx _ IH]; [done|].
  by rewrite filter_cons_True, IH.
Qed.

Lemma filter_none {A : Type} (P : A → Prop) `{∀ x, Decision (P x)}
    (l : list A) :
  Forall (λ x, ¬ P x) l → filter P l = [].
Proof.
  induction 1 as [|x l Hx _ IH]; [done|].
  by rewrite filter_cons_False.
Qed.

Lemma concat_imap_nil {A B : Type} (l : list A) :
  concat (imap (λ _ _, @nil B) l) = [].
Proof.
  induction l as [|x l IH]; [done|]. rewrite imap_cons. cbn. exact IH.
Qed.

Lemma concat_imap_select {A B : Type} (f : nat → A → list B) (l : list A)
    (k : nat) (x : A) :
  l !! k = Some x →
  concat (imap (λ j y, if decide (j = k) then f j y else []) l) = f k x.
Proof.
  revert f k. induction l as [|y l IH]; intros f k Hk; [done|].
  rewrite imap_cons. cbn [concat]. destruct k as [|k].
  - injection Hk as ->. rewrite decide_True by done.
    rewrite (imap_ext _ (λ _ _, [])).
    + by rewrite concat_imap_nil, app_nil_r.
    + intros j z _. cbn. by rewrite decide_False.
  - rewrite decide_False by done. cbn [app].
    rewrite (imap_ext _ (λ j z, if decide (j = k) then (f ∘ S) j z else [])).
    + exact (IH (f ∘ S) k Hk).
    + intros j z _. cbn. by repeat case_decide; try lia.
Qed.

Lemma concat_imap_none {A B : Type} (f : nat → A → list B) (l : list A)
    (k : nat) :
  length l ≤ k →
  concat (imap (λ j y, if decide (j = k) then f j y else []) l) = [].
Proof.
  intros Hk. rewrite (imap_ext _ (λ _ _, [])); [apply concat_imap_nil|].
  intros j y Hj. apply lookup_lt_Some in Hj. cbn. rewrite decide_False; [done|lia].
Qed.

Section ExtractMore.

Variable widgetOverlay : nat → Viewport → nat → Annotation → Overlay.t.

(** [pageIndex: i - 1] *)
Hypothesis pageIndex_template : ∀ i viewport idx a,
  Overlay.pageIndex (widgetOverlay i viewport idx a) = (Z.of_nat i - 1)%Z.

Lemma overlaysOfWidgets_length pdf :
  length (overlaysOfWidgets widgetOverlay pdf)
    = sum_list (map (λ page, length (pageWidgets page)) pdf).
Proof.
  unfold overlaysOfWidgets. rewrite length_concat_imap. f_equal.
  rewrite <- (imap_const (λ page, length (pageWidgets page))).
  apply imap_ext. intros k page _. cbn. by rewrite length_imap.
Qed.

Lemma overlaysOfWidgets_in_range pdf :
  Forall (λ ov, (0 ≤ Overlay.pageIndex ov < Z.of_nat (length pdf))%Z)
         (overlaysOfWidgets widgetOverlay pdf).
Proof.
  apply Forall_forall. intros ov Hov.
  apply elem_of_concat_imap in Hov as (k & page & Hk & Hov).
  apply elem_of_lookup_imap in Hov as (idx & a & -> & _).
  rewrite pageIndex_template. apply lookup_lt_Some in Hk. lia.
Qed.

Lemma pageOverlays_block (k j : nat) (page : PdfJsPage) :
  pageOverlays
    (imap (λ idx a, widgetOverlay (S j) (pageViewport page) idx a)
          (pageWidgets page)) k
  = if decide (j = k)
    then imap (λ idx a, widgetOverlay (S j) (pageViewport page) idx a)
              (pageWidgets page)
    else [].
Proof.
  unfold pageOverlays. case_decide as Hjk.
  - apply filter_all. apply Forall_forall. intros ov Hov.
    apply elem_of_lookup_imap in Hov as (idx & a & -> & _).
    rewrite pageIndex_template. lia.
  - apply filter_none. apply Forall_forall. intros ov Hov.
    apply elem_of_lookup_imap in Hov as (idx & a & -> & _).
    rewrite pageIndex_template. lia.
Qed.

Lemma pageOverlays_overlaysOfWidgets pdf (k : nat) :
  pageOverlays (overlaysOfWidgets widgetOverlay pdf) k =
    match pdf !! k with
    | Some page =>
        imap (λ idx a, widgetOverlay (S k) (pageViewport page) idx a)
             (pageWidgets page)
    | None => []
    end.
Proof.
  unfold overlaysOfWidgets. unfold pageOverlays at 1.
  rewrite filter_concat.
  change (map ?f ?l) with (fmap (M := list) f l). rewrite fmap_imap.
  rewrite (imap_ext _ (λ j page,
             if decide (j = k)
             then imap (λ idx a, widgetOverlay (S j) (pageViewport page) idx a)
                       (pageWidgets page)
             else [])).
  2:{ intros j page _. cbn. apply pageOverlays_block. }
  destruct (pdf !! k) as [page|] eqn:Hk.
  - by rewrite (concat_imap_select
             (λ j page, imap (λ idx a,
                widgetOverlay (S j) (pageViewport page) idx a)
                (pageWidgets page)) pdf k page Hk).
  - apply lookup_ge_None in Hk.
    by apply (concat_imap_none
             (λ j page, imap (λ idx a,
                widgetOverlay (S j) (pageViewport page) idx a)
                (pageWidgets page))).
Qed.

End ExtractMore.

Lemma Current_pageIndex_template i viewport idx a :
  Overlay.pageIndex (Current.widgetOverlay i viewport idx a)
    = (Z.of_nat i - 1)%Z.
Proof.
  unfold Current.widgetOverlay.
  by destruct (String.eqb _ "checkbox" || String.eqb _ "radio").
Qed.

Lemma Earlier_pageIndex_template i viewport idx a :
  Overlay.pageIndex (Earlier.widgetOverlay i viewport idx a)
    = (Z.of_nat i - 1)%Z.
Proof. done. Qed.

(** X3.  The extractor returns the document's pages as they are and exactly
    one overlay per annotation of subtype "Widget": annotations of any other
    subtype add nothing, and a document without pages gives no overlay; in
    both revisions. *)
Theorem extract_one_overlay_per_widget (pdf : list PdfJsPage) :
  fst (Current.extractFieldsWithPdfJs pdf) = pdf ∧
  fst (Earlier.extractFieldsWithPdfJs pdf) = pdf ∧
  length (snd (Current.extractFieldsWithPdfJs pdf))
    = sum_list (map (λ page, length (pageWidgets page)) pdf) ∧
  length (snd (Earlier.extractFieldsWithPdfJs pdf))
    = sum_list (map (λ page, length (pageWidgets page)) pdf) ∧
  (∀ page a, a ∈ pageWidgets page ↔
             a ∈ getAnnotations page ∧ subtype a = JsString "Widget").
Proof.
  unfold Current.extractFieldsWithPdfJs, Earlier.extractFieldsWithPdfJs.
  rewrite !extractFieldsWithPdfJs_spec. cbn [fst snd].
  rewrite !overlaysOfWidgets_length.
  split_and!; try done.
  intros page a. unfold pageWidgets. rewrite list_elem_of_filter.
  unfold isWidget, strict_eq_str. split.
  - intros [Hw Ha]. split; [done|].
    destruct (subtype a) as [| | |s]; try done.
    by apply String.eqb_eq in Hw as ->.
  - intros [Ha ->]. split; [|done]. apply String.eqb_refl.
Qed.

(** X4.  Every extracted overlay points at an existing page, and the
    overlays that [PageLayer] and [LeftSidebar] select for page [k]
    ([pageIndex === k]) are exactly the overlays made from the widgets of
    that page, in annotation order; in both revisions. *)
Theorem extract_groups_by_page (pdf : list PdfJsPage) (k : nat) :
  Forall (λ ov, (0 ≤ Overlay.pageIndex ov < Z.of_nat (length pdf))%Z)
         (snd (Current.extractFieldsWithPdfJs pdf)) ∧
  Forall (λ ov, (0 ≤ Overlay.pageIndex ov < Z.of_nat (length pdf))%Z)
         (snd (Earlier.extractFieldsWithPdfJs pdf)) ∧
  pageOverlays (snd (Current.extractFieldsWithPdfJs pdf)) k =
    match pdf !! k with
    | Some page =>
        imap (λ idx a, Current.widgetOverlay (S k) (pageViewport page) idx a)
             (pageWidgets page)
    | None => []
    end ∧
  pageOverlays (snd (Earlier.extractFieldsWithPdfJs pdf)) k =
    match pdf !! k with
    | Some page =>
        imap (λ idx a, Earlier.widgetOverlay (S k) (pageViewport page) idx a)
             (pageWidgets page)
    | None => []
    end.
Proof.
  unfold Current.extractFieldsWithPdfJs, Earlier.extractFieldsWithPdfJs.
  rewrite !extractFieldsWithPdfJs_spec. cbn [snd].
  split; [apply overlaysOfWidgets_in_range, Current_pageIndex_template|].
  split; [apply overlaysOfWidgets_in_range, Earlier_pageIndex_template|].
  split.
  - apply pageOverlays_overlaysOfWidgets, Current_pageIndex_template.
  - apply pageOverlays_overlaysOfWidgets, Earlier_pageIndex_template.
Qed.

(* ===================================================================== *)
(** * Further properties: the re-applicator *)
(* ===================================================================== *)








Section ExtractedOverlays.

Variable widgetOverlay : nat → Viewport → nat → Annotation → Overlay.t.

Hypothesis known_named : ∀ i viewport idx a,
  is_Some (typePrefix (Overlay.type (widgetOverlay i viewport idx a))) ∧
  truthy (Overlay.name (widgetOverlay i viewport idx a)) = true.


End ExtractedOverlays.



Lemma knownType_cases (ov : Overlay.t) :
  knownType ov ∨ unknownType ov.
Proof.
  unfold knownType, unknownType.
  destruct (typePrefix (Overlay.type ov)); [left; by eexists | by right].
Qed.








Section CompletedRuns.

Variable applyOverlay :
  list PdfPage → list PdfJsPage → list Field → Overlay.t → Result (list Field).

Hypothesis applyOverlay_frame : ∀ pdfPages pages form ov,
  applyOverlay pdfPages pages form ov =
    (fs ← applyOverlay pdfPages pages [] ov; Ok (form ++ fs)).

Hypothesis applyOverlay_Ok : ∀ pdfPages pgs ov fs,
  applyOverlay pdfPages pgs [] ov = Ok fs →
  is_Some (index pgs (Overlay.pageIndex ov)) ∧
  (knownType ov → is_Some (index pdfPages (Overlay.pageIndex ov))) ∧
  length fs = (if decide (knownType ov) then 1 else 0)%nat.


End CompletedRuns.












(** A checkbox overlay whose value is the string "Off", as pdf.js reports
    it for an unchecked box, is applied as a checked box. *)
Example off_string_checks :
  fieldStateFor
    (Sample.overlay "1_0_Agree" "checkbox" (JsString "Agree") (JsString "Off")
       0 10 10 16 16)
  = Some (CheckState true) ∧
  (match Current.applyFields (Serialized Sample.flatDoc)
           [Sample.overlay "1_0_Agree" "checkbox" (JsString "Agree")
              (JsString "Off") 0 10 10 16 16] [Sample.blankPage] with
   | Ok out => map fstate (formFields (PDFDocument_load out))
   | Throw _ => []
   end) = [CheckState true].
Proof. split; reflexivity. Qed.

(* ===================================================================== *)
(** * Further properties: the flattener *)
(* ===================================================================== *)

Lemma deleteAnnots_idem page page' :
  deleteAnnots page = Ok page' → deleteAnnots page' = Ok page'.
Proof.
  unfold deleteAnnots, PdfLib.dict_delete.
  destruct page as [[[[|m|]]|]]; cbn; try done; try (by intros [= <-]).
  intros [= <-]. cbn.
  by rewrite delete_id by apply (lookup_delete_eq m "Annots").
Qed.

Lemma deleteAcroForm_idem pdfDoc d1 ps fs :
  deleteAcroForm pdfDoc = Ok d1 →
  deleteAcroForm {| catalog := catalog d1; docPages := ps; formFields := fs |}
    = Ok {| catalog := catalog d1; docPages := ps; formFields := fs |}.
Proof.
  unfold deleteAcroForm, PdfLib.dict_delete.
  destruct pdfDoc as [[[[|m|]]|] ps0 fs0]; cbn; try done;
    try (by intros [= <-]).
  intros [= <-]. cbn.
  by rewrite delete_id by apply (lookup_delete_eq m "AcroForm").
Qed.

Lemma forPages_deleteAnnots_idem ps ps' e :
  forPages_deleteAnnots ps = (ps', e) →
  forPages_deleteAnnots ps' = (ps', e).
Proof.
  revert ps' e. induction ps as [|page ps IH]; intros ps' e.
  - cbn. by intros [= <- <-].
  - cbn [forPages_deleteAnnots].
    destruct (deleteAnnots page) as [page'|e'] eqn:Hp.
    + destruct (forPages_deleteAnnots ps) as [rest' e2] eqn:Hrest.
      intros [= <- <-]. cbn [forPages_deleteAnnots].
      rewrite (deleteAnnots_idem _ _ Hp). by rewrite (IH _ _ eq_refl).
    + intros [= <- <-]. cbn [forPages_deleteAnnots]. by rewrite Hp.
Qed.

(** X9.  The hard-delete phase is idempotent on every document, malformed
    ones included: running it on its own result changes nothing more and
    ends the same way. *)
Theorem hardDelete_idempotent (pdfDoc : PdfDoc) :
  hardDelete (fst (hardDelete pdfDoc)) = hardDelete pdfDoc.
Proof.
  unfold hardDelete at 2 3.
  destruct (deleteAcroForm pdfDoc) as [d1|e] eqn:Hc.
  - destruct (forPages_deleteAnnots (docPages d1)) as [ps e] eqn:Hps.
    cbn [fst]. unfold hardDelete.
    rewrite (deleteAcroForm_idem _ _ _ _ Hc). cbn [docPages catalog formFields].
    by rewrite (forPages_deleteAnnots_idem _ _ _ Hps).
  - cbn [fst]. unfold hardDelete. by rewrite Hc.
Qed.

Lemma deleteAnnots_keeps page page' key :
  deleteAnnots page = Ok page' → key ≠ "Annots" →
  dictLookup (node page') key = dictLookup (node page) key.
Proof.
  unfold deleteAnnots, PdfLib.dict_delete.
  destruct page as [[[[|m|]]|]]; cbn; try done; try (by intros [= <-]).
  intros [= <-] Hkey. cbn. by apply (lookup_delete_ne m "Annots" key).
Qed.

Lemma deleteAcroForm_keeps pdfDoc d1 key :
  deleteAcroForm pdfDoc = Ok d1 → key ≠ "AcroForm" →
  dictLookup (catalog d1) key = dictLookup (catalog pdfDoc) key ∧
  docPages d1 = docPages pdfDoc ∧ formFields d1 = formFields pdfDoc.
Proof.
  unfold deleteAcroForm, PdfLib.dict_delete.
  destruct pdfDoc as [[[[|m|]]|] ps0 fs0]; cbn; try done;
    try (by intros [= <-]).
  intros [= <-] Hkey. cbn. split; [|done].
  by apply (lookup_delete_ne m "AcroForm" key).
Qed.

Lemma forPages_deleteAnnots_keeps ps :
  Forall2 (λ page page', ∀ key, key ≠ "Annots" →
             dictLookup (node page') key = dictLookup (node page) key)
          ps (fst (forPages_deleteAnnots ps)).
Proof.
  induction ps as [|page ps IH]; [constructor|].
  cbn [forPages_deleteAnnots].
  destruct (deleteAnnots page) as [page'|e] eqn:Hp.
  - destruct (forPages_deleteAnnots ps) as [rest' e2]. cbn [fst] in *.
    constructor; [|done]. intros key Hkey. by eapply deleteAnnots_keeps.
  - cbn [fst]. apply Forall2_same_length_lookup. split; [done|].
    intros i x y Hx Hy key _. congruence.
Qed.

(** X10.  The hard-delete phase removes nothing but the "AcroForm" entry of
    the catalog and the "Annots" entry of the pages: every other catalog
    entry and every other entry of every page dictionary is kept, and so
    is the number and order of the pages. *)
Theorem hardDelete_keeps_the_rest (pdfDoc : PdfDoc) :
  (∀ key, key ≠ "AcroForm" →
     dictLookup (catalog (fst (hardDelete pdfDoc))) key
       = dictLookup (catalog pdfDoc) key) ∧
  Forall2 (λ page page', ∀ key, key ≠ "Annots" →
             dictLookup (node page') key = dictLookup (node page) key)
          (docPages pdfDoc) (docPages (fst (hardDelete pdfDoc))).
Proof.
  unfold hardDelete.
  destruct (deleteAcroForm pdfDoc) as [d1|e] eqn:Hc.
  - pose proof (forPages_deleteAnnots_keeps (docPages d1)) as Hps.
    destruct (forPages_deleteAnnots (docPages d1)) as [ps e]. cbn [fst] in *.
    cbn [formFields catalog docPages].
    destruct (deleteAcroForm_keeps _ _ "Pages" Hc ltac:(done)) as (_ & Hp & Hf).
    rewrite Hp in Hps. split; [|done].
    intros key Hkey. by apply (deleteAcroForm_keeps _ _ key Hc).
  - cbn [fst]. split; [done|].
    apply Forall2_same_length_lookup. split; [done|].
    intros i x y Hx Hy key _. congruence.
Qed.

Example mixedDoc_hardDelete :
  let d := fst (hardDelete Sample2.mixedDoc) in
  has_AcroForm d = false ∧
  dictLookup (catalog d) "Pages" = Some (PdfRef 1) ∧
  map has_Annots (docPages d) = [false; false; true] ∧
  snd (hardDelete Sample2.mixedDoc)
    = Some (TypeError "dict.delete is not a function").
Proof. repeat split; reflexivity. Qed.

(** X11.  When the catalog removal does not raise and the removal on some
    page does, the exception is swallowed after the loop has stopped there:
    the form-catalog entry is gone, the pages before the failing one have
    lost their annotations, and the failing page and every later page are
    left exactly as loaded, annotations included. *)
Theorem hardDelete_stops_at_faulty_page (pdfDoc : PdfDoc)
    (ps1 : list PdfPage) (page : PdfPage) (ps2 : list PdfPage) :
  faultySlot (catalog pdfDoc) = false →
  docPages pdfDoc = ps1 ++ page :: ps2 →
  Forall (λ p, faultySlot (node p) = false) ps1 →
  faultySlot (node page) = true →
  has_AcroForm (fst (hardDelete pdfDoc)) = false ∧
  docPages (fst (hardDelete pdfDoc)) = map withoutAnnots ps1 ++ page :: ps2 ∧
  Forall (λ p, has_Annots p = false) (map withoutAnnots ps1) ∧
  ∃ e, snd (hardDelete pdfDoc) = Some e.
Proof.
  intros Hc Hpages Hps1 Hpage. unfold hardDelete.
  destruct (deleteAcroForm_sound pdfDoc Hc) as (d1 & -> & Hd1 & Hp & _).
  rewrite Hp, Hpages.
  destruct (forPages_deleteAnnots_stops ps1 page ps2 Hps1 Hpage) as [e ->].
  cbn [fst snd docPages]. split; [exact Hd1|]. split; [done|].
  split; [|by exists e].
  apply Forall_map. eapply Forall_impl; [exact Hps1|].
  intros p Hp1. cbn. unfold withoutAnnots.
  by destruct (deleteAnnots_sound p Hp1) as (p' & -> & ?).
Qed.

Lemma hardDelete_stops_at_faulty_page_witness :
  has_AcroForm (fst (hardDelete Sample2.mixedDoc)) = false ∧
  docPages (fst (hardDelete Sample2.mixedDoc))
    = map withoutAnnots [Sample.annotatedPage]
        ++ Sample2.faultyPage :: [Sample.annotatedPage] ∧
  Forall (λ p, has_Annots p = false) (map withoutAnnots [Sample.annotatedPage]) ∧
  ∃ e, snd (hardDelete Sample2.mixedDoc) = Some e.
Proof.
  apply (hardDelete_stops_at_faulty_page Sample2.mixedDoc
           [Sample.annotatedPage] Sample2.faultyPage [Sample.annotatedPage]).
  - reflexivity.
  - reflexivity.
  - repeat constructor.
  - reflexivity.
Defined.

(* ===================================================================== *)
(** * Further properties: the overlay list *)
(* ===================================================================== *)

Lemma updateOverlay_ids (next : Overlay.t) (prev : list Overlay.t) :
  ids (updateOverlay next prev) = ids prev.
Proof.
  unfold ids, updateOverlay. rewrite map_map. apply map_ext. intros o.
  destruct (String.eqb_spec (Overlay.id o) (Overlay.id next)); congruence.
Qed.

Lemma updateOverlay_absent (next : Overlay.t) (prev : list Overlay.t) :
  Overlay.id next ∉ ids prev → updateOverlay next prev = prev.
Proof.
  unfold ids, updateOverlay. induction prev as [|o prev IH]; [done|].
  cbn. rewrite not_elem_of_cons. intros [Hne Hrest].
  rewrite IH by done.
  destruct (String.eqb_spec (Overlay.id o) (Overlay.id next)); congruence.
Qed.

(** X12.  An edit never changes which ids the list holds, nor their order:
    [updateOverlay] neither adds, removes nor renames an overlay, in either
    revision.  An edit for an id that is not in the list is dropped. *)
Theorem updateOverlay_keeps_ids (next : Overlay.t) (prev : list Overlay.t) :
  ids (updateOverlay next prev) = ids prev ∧
  (Overlay.id next ∉ ids prev → updateOverlay next prev = prev).
Proof. split; [apply updateOverlay_ids | apply updateOverlay_absent]. Qed.

Lemma updateOverlay_keeps_ids_witness :
  ids (updateOverlay Sample.strayOverlay [Sample.textOverlay; Sample.tick30x12])
    = ["new_3"; "new_1"] ∧
  updateOverlay Sample.strayOverlay [Sample.textOverlay; Sample.tick30x12]
    = [Sample.textOverlay; Sample.tick30x12].
Proof.
  destruct (updateOverlay_keeps_ids Sample.strayOverlay
              [Sample.textOverlay; Sample.tick30x12]) as [Hids Habsent].
  split; [exact Hids|]. apply Habsent.
  apply (bool_decide_unpack _). vm_compute. exact I.
Defined.

Lemma NoDup_ids_lookup (prev : list Overlay.t) (i k : nat) (o o' : Overlay.t) :
  NoDup (ids prev) → prev !! i = Some o → prev !! k = Some o' →
  Overlay.id o = Overlay.id o' → i = k.
Proof.
  intros Hnd Hi Hk Hid.
  apply (NoDup_lookup (ids prev) i k (Overlay.id o) Hnd); unfold ids.
  - change (map Overlay.id prev) with (Overlay.id <$> prev).
    by rewrite list_lookup_fmap, Hi.
  - change (map Overlay.id prev) with (Overlay.id <$> prev).
    by rewrite list_lookup_fmap, Hk, Hid.
Qed.

(** X13.  With pairwise distinct ids, an edit replaces the overlay that has
    the id of [next], in place, and nothing else: the list afterwards is the
    list before with position [k] overwritten. *)
Theorem updateOverlay_in_place (next : Overlay.t) (prev : list Overlay.t)
    (k : nat) (o : Overlay.t) :
  NoDup (ids prev) → prev !! k = Some o → Overlay.id o = Overlay.id next →
  updateOverlay next prev = <[k := next]> prev.
Proof.
  intros Hnd Hk Hid. apply list_eq. intros i. unfold updateOverlay.
  change (map ?f prev) with (f <$> prev). rewrite list_lookup_fmap.
  destruct (decide (i = k)) as [->|Hik].
  - rewrite list_lookup_insert_eq by by eapply lookup_lt_Some.
    rewrite Hk. cbn. by rewrite Hid, String.eqb_refl.
  - rewrite list_lookup_insert_ne by done.
    destruct (prev !! i) as [o'|] eqn:Hi; [|done]. cbn. f_equal.
    destruct (String.eqb_spec (Overlay.id o') (Overlay.id next)) as [He|];
      [|done].
    exfalso. apply Hik. eapply NoDup_ids_lookup; eauto. congruence.
Qed.

Lemma updateOverlay_in_place_witness :
  updateOverlay (CurrentUi.edited (CurrentUi.DragEnd 5 7) Sample.tick30x12)
                [Sample.textOverlay; Sample.tick30x12; Sample.signature]
  = <[1%nat := CurrentUi.edited (CurrentUi.DragEnd 5 7) Sample.tick30x12]>
      [Sample.textOverlay; Sample.tick30x12; Sample.signature].
Proof.
  apply (updateOverlay_in_place _ _ 1%nat Sample.tick30x12).
  - apply (bool_decide_unpack _). vm_compute. exact I.
  - reflexivity.
  - reflexivity.
Defined.

Lemma deleteOverlay_absent (id : string) (prev : list Overlay.t) :
  id ∉ ids prev → deleteOverlay id prev = prev.
Proof.
  intros Hid. unfold deleteOverlay. apply filter_all.
  apply Forall_forall. intros o Ho Heq. apply Hid. unfold ids.
  apply list_elem_of_fmap. by exists o.
Qed.

Lemma deleteOverlay_no_id (id : string) (prev : list Overlay.t) :
  id ∉ ids (deleteOverlay id prev).
Proof.
  unfold ids, deleteOverlay. intros (o & -> & Ho)%list_elem_of_fmap.
  by apply list_elem_of_filter in Ho as [Hne _].
Qed.

Lemma deleteOverlay_keeps_others (id : string) (prev : list Overlay.t)
    (o : Overlay.t) :
  o ∈ prev → Overlay.id o ≠ id → o ∈ deleteOverlay id prev.
Proof. intros Ho Hne. unfold deleteOverlay. by apply list_elem_of_filter. Qed.

(** X14.  With pairwise distinct ids, deleting by the id of the overlay at
    position [k] removes that one overlay and keeps all others in their
    order, in either revision. *)
Theorem deleteOverlay_removes_one (prev : list Overlay.t) (k : nat)
    (o : Overlay.t) :
  NoDup (ids prev) → prev !! k = Some o →
  deleteOverlay (Overlay.id o) prev = delete k prev.
Proof.
  revert k. induction prev as [|o' prev IH]; intros k Hnd Hk; [done|].
  cbn in Hnd. apply NoDup_cons in Hnd as [Hhead Hnd].
  unfold deleteOverlay. rewrite filter_cons. destruct k as [|k]; cbn in Hk.
  - injection Hk as ->. rewrite decide_False by (intros H; by apply H).
    cbn. by apply deleteOverlay_absent.
  - rewrite decide_True.
    + cbn. f_equal. by apply IH.
    + intros Heq. apply Hhead. rewrite Heq.
      apply list_elem_of_fmap. exists o. split; [done|].
      by eapply list_elem_of_lookup_2.
Qed.

Lemma deleteOverlay_removes_one_witness :
  deleteOverlay "new_1" [Sample.textOverlay; Sample.tick30x12; Sample.signature]
  = [Sample.textOverlay; Sample.signature].
Proof.
  apply (deleteOverlay_removes_one
           [Sample.textOverlay; Sample.tick30x12; Sample.signature]
           1%nat Sample.tick30x12).
  - apply (bool_decide_unpack _). vm_compute. exact I.
  - reflexivity.
Defined.

(** Two overlays added within one millisecond share their id; an edit of
    one then overwrites both, and deleting one deletes both. *)
Example same_millisecond_twins :
  let st := CurrentUi.addFields [("text", 5%nat); ("checkbox", 5%nat)]
              (CurrentUi.loaded [Sample.blankPage] []) in
  ids (CurrentUi.overlays st) = ["new_5"; "new_5"] ∧
  ∀ next, Overlay.id next = "new_5" →
    CurrentUi.overlays (CurrentUi.updateOverlay next st) = [next; next] ∧
    CurrentUi.overlays (CurrentUi.deleteOverlay "new_5" st) = [].
Proof.
  split; [reflexivity|]. intros next Hid. split; [|reflexivity].
  cbn. unfold updateOverlay. cbn. by rewrite Hid.
Qed.

(* ===================================================================== *)
(** * Further properties: ids of added overlays *)
(* ===================================================================== *)

Lemma string_of_uint_no_n (d : Decimal.uint) :
  occurs "n" (NilEmpty.string_of_uint d) = false.
Proof. induction d; cbn; done. Qed.

Lemma decimal_not_new (n : nat) : decimal n ≠ "new".
Proof.
  intros H. pose proof (string_of_uint_no_n (Nat.to_uint n)) as Hn.
  unfold decimal in H. rewrite H in Hn. discriminate.
Qed.

Lemma new_id_key (now : nat) :
  fst (idKey ("new_" +:+ decimal now)) = "new".
Proof.
  unfold idKey. cbn [fst].
  change ("new_" +:+ decimal now) with ("new" +:+ String "_" (decimal now)).
  by rewrite before_append.
Qed.

Lemma new_id_inj (a b : nat) :
  "new_" +:+ decimal a = "new_" +:+ decimal b → a = b.
Proof.
  change ("new_" +:+ decimal a) with ("new" +:+ String "_" (decimal a)).
  change ("new_" +:+ decimal b) with ("new" +:+ String "_" (decimal b)).
  intros H. apply (f_equal (after "_")) in H.
  rewrite !after_append in H by reflexivity. by apply decimal_inj.
Qed.

Lemma Current_addFields_overlays adds st :
  CurrentUi.pages (CurrentUi.addFields adds st) = CurrentUi.pages st ∧
  CurrentUi.overlays (CurrentUi.addFields adds st)
    = CurrentUi.overlays st ++
      match CurrentUi.pages st with
      | [] => []
      | _ => map (λ a, CurrentUi.newOverlay (fst a) (snd a)) adds
      end.
Proof.
  unfold CurrentUi.addFields. revert st.
  induction adds as [|a adds IH]; intros st; cbn [fold_left].
  - split; [done|]. destruct (CurrentUi.pages st); by rewrite app_nil_r.
  - destruct (IH (CurrentUi.addField (fst a) (snd a) st)) as [-> ->].
    unfold CurrentUi.addField.
    destruct (CurrentUi.pages st) as [|p ps] eqn:Hp.
    + by rewrite Hp.
    + cbn. by rewrite <- app_assoc.
Qed.

Lemma Earlier_addFields_overlays adds pgs ovs :
  EarlierUi.addFields adds pgs ovs
    = ovs ++
      match pgs with
      | [] => []
      | _ => map (λ a, EarlierUi.newOverlay (fst a) (snd a)) adds
      end.
Proof.
  unfold EarlierUi.addFields. revert ovs.
  induction adds as [|a adds IH]; intros ovs; cbn [fold_left].
  - destruct pgs; by rewrite app_nil_r.
  - rewrite IH. unfold EarlierUi.addField. destruct pgs; [done|].
    cbn. by rewrite <- app_assoc.
Qed.

Section FreshIds.

Variable widgetOverlay : nat → Viewport → nat → Annotation → Overlay.t.
Variable newOverlay : string → nat → Overlay.t.

Hypothesis id_template : ∀ i viewport idx a, ∃ name,
  Overlay.id (widgetOverlay i viewport idx a)
    = decimal i +:+ "_" +:+ decimal idx +:+ "_" +:+ name.

Hypothesis new_id : ∀ type now,
  Overlay.id (newOverlay type now) = "new_" +:+ decimal now.

Lemma extracted_id_not_new pdf now :
  "new_" +:+ decimal now ∉ ids (overlaysOfWidgets widgetOverlay pdf).
Proof.
  unfold ids. intros (o & Hid & Ho)%list_elem_of_fmap.
  unfold overlaysOfWidgets in Ho.
  apply elem_of_concat_imap in Ho as (k & page & _ & Ho).
  apply elem_of_lookup_imap in Ho as (idx & a & -> & _).
  destruct (id_template (S k) (pageViewport page) idx a) as [name Hname].
  rewrite Hname in Hid. apply (f_equal (λ s, fst (idKey s))) in Hid.
  rewrite new_id_key, idKey_template in Hid. cbn [fst] in Hid.
  symmetry in Hid. by apply decimal_not_new in Hid.
Qed.

Lemma added_ids_NoDup pdf (adds : list (string * nat)) :
  NoDup (map snd adds) →
  NoDup (ids (overlaysOfWidgets widgetOverlay pdf
              ++ map (λ a, newOverlay (fst a) (snd a)) adds)).
Proof.
  intros Hnd. unfold ids. rewrite map_app. apply NoDup_app. split.
  - by apply overlaysOfWidgets_ids_NoDup.
  - split.
    + intros i Hi (o & -> & (a & -> & Ha)%list_elem_of_fmap)%list_elem_of_fmap.
      rewrite new_id in Hi. by eapply extracted_id_not_new.
    + rewrite map_map. induction adds as [|a adds IH]; [constructor|].
      cbn in Hnd |- *. apply NoDup_cons in Hnd as [Ha Hnd].
      apply NoDup_cons. split; [|by apply IH].
      intros (b & Hb & Hin)%list_elem_of_fmap. apply Ha.
      rewrite !new_id in Hb. apply new_id_inj in Hb. rewrite Hb.
      apply list_elem_of_fmap. by exists b.
Qed.

End FreshIds.

(** X15.  After a file is loaded, fields added at pairwise distinct times
    get ids that differ from each other and from the id of every extracted
    overlay, whatever the field names in the file: the ids of the list stay
    pairwise distinct, in both revisions. *)
Theorem addField_ids_distinct (pdf flatPages : list PdfJsPage)
    (adds : list (string * nat)) :
  NoDup (map snd adds) →
  NoDup (ids (CurrentUi.overlays
                (CurrentUi.addFields adds
                   (CurrentUi.loaded flatPages
                      (snd (Current.extractFieldsWithPdfJs pdf)))))) ∧
  NoDup (ids (EarlierUi.addFields adds flatPages
                (snd (Earlier.extractFieldsWithPdfJs pdf)))).
Proof.
  intros Hnd.
  unfold Current.extractFieldsWithPdfJs, Earlier.extractFieldsWithPdfJs.
  rewrite !extractFieldsWithPdfJs_spec. cbn [snd]. split.
  - destruct (Current_addFields_overlays adds
                (CurrentUi.loaded flatPages
                   (overlaysOfWidgets Current.widgetOverlay pdf))) as [_ ->].
    cbn [CurrentUi.loaded CurrentUi.pages CurrentUi.overlays].
    destruct flatPages.
    + rewrite app_nil_r.
      apply overlaysOfWidgets_ids_NoDup, Current_id_template.
    + apply added_ids_NoDup; [apply Current_id_template | done | done].
  - rewrite Earlier_addFields_overlays. destruct flatPages.
    + rewrite app_nil_r.
      apply overlaysOfWidgets_ids_NoDup, Earlier_id_template.
    + apply added_ids_NoDup; [apply Earlier_id_template | done | done].
Qed.

Lemma addField_ids_distinct_witness :
  NoDup (ids (CurrentUi.overlays
                (CurrentUi.addFields [("text", 7%nat); ("radio", 9%nat)]
                   (CurrentUi.loaded [Sample.blankPage]
                      (snd (Current.extractFieldsWithPdfJs
                              [Sample.fixturePage])))))) ∧
  NoDup (ids (EarlierUi.addFields [("text", 7%nat); ("radio", 9%nat)]
                [Sample.blankPage]
                (snd (Earlier.extractFieldsWithPdfJs [Sample.fixturePage])))).
Proof.
  apply (addField_ids_distinct [Sample.fixturePage] [Sample.blankPage]
           [("text", 7%nat); ("radio", 9%nat)]).
  apply (bool_decide_unpack _). vm_compute. exact I.
Defined.

(** A file whose field is named like an added overlay does not clash with
    it: the extracted id carries the page number and index in front. *)
Example added_ids_sample :
  ids (CurrentUi.overlays
         (CurrentUi.addFields [("text", 7%nat); ("radio", 9%nat)]
            (CurrentUi.loaded [Sample.blankPage]
               (snd (Current.extractFieldsWithPdfJs [Sample.fixturePage])))))
  = ["1_0_Name"; "1_1_Agree"; "new_7"; "new_9"].
Proof. reflexivity. Qed.

(* ===================================================================== *)
(** * Further properties: the field list by page *)
(* ===================================================================== *)

Lemma filter_disjoint_app {A : Type} (P Q R : A → Prop)
    `{∀ x, Decision (P x)} `{∀ x, Decision (Q x)} `{∀ x, Decision (R x)}
    (l : list A) :
  (∀ x, R x ↔ P x ∨ Q x) → (∀ x, P x → Q x → False) →
  filter P l ++ filter Q l ≡ₚ filter R l.
Proof.
  intros HR Hdisj. induction l as [|x l IH]; [done|].
  rewrite !filter_cons.
  destruct (decide (P x)) as [HP|HP], (decide (Q x)) as [HQ|HQ],
           (decide (R x)) as [HRx|HRx];
    try (exfalso; by eauto);
    try (exfalso; apply HRx, HR; by eauto);
    try (exfalso; apply HR in HRx as [?|?]; by eauto).
  - cbn. by constructor.
  - rewrite <- Permutation_middle. by constructor.
  - done.
Qed.

Lemma pageOverlays_seq (overlays : list Overlay.t) (s n : nat) :
  concat (map (pageOverlays overlays) (seq s n))
  ≡ₚ filter (λ o, (Z.of_nat s ≤ Overlay.pageIndex o < Z.of_nat (s + n))%Z)
            overlays.
Proof.
  revert s. induction n as [|n IH]; intros s.
  - cbn. rewrite filter_none; [done|].
    apply Forall_forall. intros o _. lia.
  - cbn [seq map concat]. rewrite IH. unfold pageOverlays.
    apply filter_disjoint_app; intros o; lia.
Qed.

(** X16.  The field list of the left sidebar has one group per page, in
    page order, and the groups together hold exactly the overlays whose page
    index selects one of the pages, each once.  An overlay whose page index
    selects no page is in no group. *)
Theorem byPage_lists_each_once (pages : list PdfJsPage)
    (overlays : list Overlay.t) :
  map fst (byPage pages overlays) = seq 0 (length pages) ∧
  concat (map snd (byPage pages overlays))
    ≡ₚ filter (inRange (length pages)) overlays.
Proof.
  unfold byPage. rewrite !map_map. cbn [fst snd]. split.
  - apply map_id.
  - change (λ x : nat, pageOverlays overlays x) with (pageOverlays overlays).
    apply (pageOverlays_seq overlays 0 (length pages)).
Qed.

Example stray_overlay_is_listed_nowhere :
  byPage [Sample.blankPage] [Sample.textOverlay; Sample.strayOverlay]
    = [(0%nat, [Sample.textOverlay])].
Proof. reflexivity. Qed.

(* ===================================================================== *)
(** * Further properties: sidebar resizing *)
(* ===================================================================== *)

Section Resizing.

#[local] Open Scope Q_scope.

Lemma clamp_bounds (lo hi v : Q) :
  lo <= hi → lo <= Qmin hi (Qmax lo v) ∧ Qmin hi (Qmax lo v) <= hi.
Proof.
  intros Hlh. split.
  - apply Q.min_glb; [done | apply Q.le_max_l].
  - apply Q.le_min_l.
Qed.

Lemma max_at_least_240 (v : Q) : 240 <= Qmax 240 v.
Proof. apply Q.le_max_l. Qed.

Lemma onMove_minimum dragging shell clientX w :
  180 <= leftWidth w → 200 <= rightWidth w →
  180 <= leftWidth (onMove dragging shell clientX w) ∧
  200 <= rightWidth (onMove dragging shell clientX w).
Proof.
  intros Hl Hr. unfold onMove.
  destruct dragging, shell as [rect|]; cbn; try done; (split; [|try done]);
    try done.
  - apply clamp_bounds. pose proof (max_at_least_240
      (rect_width rect - rightWidth w - 240)). lra.
  - apply clamp_bounds. pose proof (max_at_least_240
      (rect_width rect - leftWidth w - 240)). lra.
Qed.

Lemma onMoves_snoc dragging shell xs clientX w :
  onMoves dragging shell (xs ++ [clientX]) w
    = onMove dragging shell clientX (onMoves dragging shell xs w).
Proof. unfold onMoves. by rewrite fold_left_app. Qed.

Lemma onMoves_other_side dragging shell xs w :
  match dragging with
  | DragLeft => rightWidth (onMoves dragging shell xs w) = rightWidth w
  | DragRight => leftWidth (onMoves dragging shell xs w) = leftWidth w
  | NotDragging => onMoves dragging shell xs w = w
  end.
Proof.
  induction xs as [|clientX xs IH] using rev_ind.
  - by destruct dragging.
  - rewrite onMoves_snoc. unfold onMove.
    destruct dragging, shell as [rect|]; cbn; done.
Qed.

(** X17.  While a sidebar is dragged, whatever the pointer positions and the
    size of the window: the left sidebar stays at least 180 wide and the
    right one at least 200; the sidebar that is not dragged keeps its
    width; and after a move the dragged one is at most
    [max(240, shell width - other sidebar - 240)]. *)
Theorem onMoves_bounds (dragging : Dragging) (shell : option ClientRect)
    (xs : list Q) (w : SidebarWidths) :
  180 <= leftWidth w → 200 <= rightWidth w →
  let w' := onMoves dragging shell xs w in
  180 <= leftWidth w' ∧ 200 <= rightWidth w' ∧
  ∀ rect, shell = Some rect → xs ≠ [] →
    match dragging with
    | DragLeft =>
        rightWidth w' = rightWidth w ∧
        leftWidth w' <= Qmax 240 (rect_width rect - rightWidth w - 240)
    | DragRight =>
        leftWidth w' = leftWidth w ∧
        rightWidth w' <= Qmax 240 (rect_width rect - leftWidth w - 240)
    | NotDragging => w' = w
    end.
Proof.
  intros Hl Hr. cbn zeta.
  assert (180 <= leftWidth (onMoves dragging shell xs w) ∧
          200 <= rightWidth (onMoves dragging shell xs w)) as [Hl' Hr'].
  { induction xs as [|clientX xs IH] using rev_ind; [done|].
    rewrite onMoves_snoc. destruct IH. by apply onMove_minimum. }
  split; [done|]. split; [done|]. intros rect -> Hxs.
  pose proof (onMoves_other_side dragging (Some rect) xs w) as Hother.
  destruct dragging; [| |done].
  - split; [done|].
    destruct xs as [|clientX xs _] using rev_ind; [done|].
    rewrite onMoves_snoc. cbn.
    pose proof (onMoves_other_side DragLeft (Some rect) xs w) as ->.
    apply Q.le_min_l.
  - split; [done|].
    destruct xs as [|clientX xs _] using rev_ind; [done|].
    rewrite onMoves_snoc. cbn.
    pose proof (onMoves_other_side DragRight (Some rect) xs w) as ->.
    apply Q.le_min_l.
Qed.

Lemma onMoves_bounds_witness :
  let w' := onMoves DragLeft
              (Some {| rect_left := 0; rect_right := 1200; rect_width := 1200 |})
              [100; 900; 500] {| leftWidth := 260; rightWidth := 300 |} in
  180 <= leftWidth w' ∧ 200 <= rightWidth w' ∧
  ∀ rect,
    Some {| rect_left := 0; rect_right := 1200; rect_width := 1200 |}
      = Some rect →
    [100; 900; 500] ≠ [] →
    rightWidth w' = 300 ∧
    leftWidth w' <= Qmax 240 (rect_width rect - 300 - 240).
Proof.
  apply (onMoves_bounds DragLeft
           (Some {| rect_left := 0; rect_right := 1200; rect_width := 1200 |})
           [100; 900; 500] {| leftWidth := 260; rightWidth := 300 |}).
  - cbn. lra.
  - cbn. lra.
Defined.

(** The [Math.max(240, ...)] in the upper bound lets a drag take the centre
    column below 240: in a shell of 700 with sidebars of 180 and 280 the
    centre is 240 wide; dragging the left sidebar to 240 leaves 180. *)
Example centre_column_below_240 :
  let rect := {| rect_left := 0; rect_right := 700; rect_width := 700 |} in
  let w := {| leftWidth := 180; rightWidth := 280 |} in
  let w' := onMove DragLeft (Some rect) 240 w in
  rect_width rect - leftWidth w - rightWidth w == 240 ∧
  rect_width rect - leftWidth w' - rightWidth w' == 180.
Proof. split; vm_compute; reflexivity. Qed.

End Resizing.

(* ===================================================================== *)
(** * Further properties: the name of the download *)
(* ===================================================================== *)

Lemma stripPdfSuffix_eq (s : string) :
  stripPdfSuffix s
    = if isDotPdf s then EmptyString
      else match s with
           | EmptyString => EmptyString
           | String c r => String c (stripPdfSuffix r)
           end.
Proof. by destruct s. Qed.

Lemma isDotPdf_length (s : string) :
  isDotPdf s = true → String.length s = 4%nat.
Proof. by destruct s as [|? [|? [|? [|? [|]]]]]. Qed.

Lemma length_append (s1 s2 : string) :
  String.length (s1 +:+ s2) = (String.length s1 + String.length s2)%nat.
Proof.
  induction s1 as [|c s1 IH]; rewrite ?append_String, ?append_Empty; cbn;
    [done | by rewrite IH].
Qed.

Lemma stripPdfSuffix_app (base ext : string) :
  isDotPdf ext = true → stripPdfSuffix (base +:+ ext) = base.
Proof.
  intros Hext. induction base as [|c base IH].
  - rewrite append_Empty, stripPdfSuffix_eq. by rewrite Hext.
  - rewrite append_String, stripPdfSuffix_eq.
    destruct (isDotPdf (String c (base +:+ ext))) eqn:Hdot.
    + apply isDotPdf_length in Hdot. apply isDotPdf_length in Hext.
      cbn in Hdot. rewrite length_append in Hdot. lia.
    + by rewrite IH.
Qed.

Lemma stripPdfSuffix_other (name : string) :
  ¬ endsWithDotPdf name → stripPdfSuffix name = name.
Proof.
  induction name as [|c name IH]; intros Hno; [done|].
  rewrite stripPdfSuffix_eq.
  destruct (isDotPdf (String c name)) eqn:Hdot.
  - exfalso. apply Hno. exists "", (String c name).
    by rewrite append_Empty.
  - rewrite IH; [done|]. intros (base & ext & -> & Hext). apply Hno.
    exists (String c base), ext. by rewrite append_String.
Qed.

(** X18.  The download is named after the uploaded file: a name that ends in
    ".pdf", in any case of the letters, loses that ending, once, and gets
    ".with-fields.pdf"; any other non-empty name gets ".with-fields.pdf"
    appended as it is; without a file name the download is called
    "document.with-fields.pdf". *)
Theorem downloadName_rule :
  (∀ base ext, isDotPdf ext = true →
     downloadName (Some (base +:+ ext)) = base +:+ ".with-fields.pdf") ∧
  (∀ name, name ≠ "" → ¬ endsWithDotPdf name →
     downloadName (Some name) = name +:+ ".with-fields.pdf") ∧
  downloadName (Some "") = "document.with-fields.pdf" ∧
  downloadName None = "document.with-fields.pdf".
Proof.
  split_and!; try reflexivity.
  - intros base ext Hext. unfold downloadName.
    destruct (String.eqb_spec (base +:+ ext) "") as [Hempty|_].
    + apply (f_equal String.length) in Hempty.
      rewrite length_append, (isDotPdf_length _ Hext) in Hempty.
      cbn in Hempty. lia.
    + by rewrite stripPdfSuffix_app.
  - intros name Hne Hno. unfold downloadName.
    destruct (String.eqb_spec name "") as [|_]; [done|].
    by rewrite stripPdfSuffix_other.
Qed.

Example downloadName_samples :
  downloadName (Some "form.pdf") = "form.with-fields.pdf" ∧
  downloadName (Some "FORM.PdF") = "FORM.with-fields.pdf" ∧
  downloadName (Some "a.pdf.pdf") = "a.pdf.with-fields.pdf" ∧
  downloadName (Some "scan.pdf.bak") = "scan.pdf.bak.with-fields.pdf" ∧
  downloadName (Some ".pdf") = ".with-fields.pdf".
Proof. repeat split; reflexivity. Qed.

(* ===================================================================== *)
(** * Further properties: the editor session *)
(* ===================================================================== *)

Lemma edited_id (e : CurrentUi.Edit) (field : Overlay.t) :
  Overlay.id (CurrentUi.edited e field) = Overlay.id field.
Proof. by destruct field, e. Qed.

Lemma edited_type (e : CurrentUi.Edit) (field : Overlay.t) :
  Overlay.type (CurrentUi.edited e field) = Overlay.type field.
Proof. by destruct field, e. Qed.

Lemma edited_inRange (n : nat) (e : CurrentUi.Edit) (field : Overlay.t) :
  CurrentUi.offered n field e → inRange n field →
  inRange n (CurrentUi.edited e field).
Proof.
  unfold inRange. destruct field, e; cbn; try done. intros. lia.
Qed.

Lemma edited_square (n : nat) (e : CurrentUi.Edit) (field : Overlay.t) :
  CurrentUi.offered n field e →
  (isTick (Overlay.type field) = true →
   Overlay.width field = Overlay.height field) →
  isTick (Overlay.type (CurrentUi.edited e field)) = true →
  Overlay.width (CurrentUi.edited e field)
    = Overlay.height (CurrentUi.edited e field).
Proof.
  destruct field, e; cbn; try done; intros Hoff _ Htick; congruence.
Qed.

Lemma Forall_updateOverlay (P : Overlay.t → Prop) next prev :
  Forall P prev → P next → Forall P (updateOverlay next prev).
Proof.
  intros Hprev Hnext. unfold updateOverlay. apply Forall_map.
  eapply Forall_impl; [exact Hprev|]. intros o Ho. cbn.
  by destruct (String.eqb _ _).
Qed.

Lemma Forall_deleteOverlay (P : Overlay.t → Prop) id prev :
  Forall P prev → Forall P (deleteOverlay id prev).
Proof.
  rewrite !Forall_forall. intros Hprev o Ho.
  apply list_elem_of_filter in Ho as [_ Ho]. by apply Hprev.
Qed.

Lemma elem_of_ids (o : Overlay.t) (l : list Overlay.t) :
  o ∈ l → Overlay.id o ∈ ids l.
Proof. intros Ho. apply list_elem_of_fmap. by exists o. Qed.

Lemma ids_deleteOverlay_other (i id : string) (prev : list Overlay.t) :
  i ∈ ids prev → i ≠ id → i ∈ ids (deleteOverlay id prev).
Proof.
  intros (o & -> & Ho)%list_elem_of_fmap Hne.
  by apply elem_of_ids, deleteOverlay_keeps_others.
Qed.

Lemma newOverlay_square (type : string) (now : nat) :
  isTick (Overlay.type (CurrentUi.newOverlay type now)) = true →
  Overlay.width (CurrentUi.newOverlay type now)
    = Overlay.height (CurrentUi.newOverlay type now).
Proof.
  unfold CurrentUi.newOverlay, isTick. cbn. by intros ->.
Qed.

Lemma deleteOverlay_wellFormed (id : string) (st : CurrentUi.State) :
  wellFormed st → wellFormed (CurrentUi.deleteOverlay id st).
Proof.
  intros (Hpages & Hticks & Hsel). split_and!; cbn.
  - by apply Forall_deleteOverlay.
  - by apply Forall_deleteOverlay.
  - intros i. destruct (CurrentUi.selectedId st) as [j|]; [|done].
    destruct (String.eqb_spec j id) as [->|Hne]; [done|].
    intros [= <-]. apply ids_deleteOverlay_other; [|done]. by apply Hsel.
Qed.

Lemma step_wellFormed (st st' : CurrentUi.State) :
  wellFormed st → CurrentUi.step st st' → wellFormed st'.
Proof.
  intros Hwf Hstep. pose proof Hwf as (Hpages & Hticks & Hsel).
  destruct Hstep as [type now|field Hfield| |field e Hfield Hoff
                    |field Hfield|id Hid].
  - unfold CurrentUi.addField.
    destruct (CurrentUi.pages st) as [|p ps] eqn:Hp; [done|].
    unfold wellFormed. cbn [CurrentUi.pages CurrentUi.overlays
                            CurrentUi.selectedId].
    try rewrite Hp in Hpages. split_and!.
    + apply Forall_app. split; [done|]. constructor; [|done].
      unfold inRange. cbn. lia.
    + apply Forall_app. split; [done|]. constructor; [|done].
      apply newOverlay_square.
    + intros i [= <-]. unfold ids. rewrite map_app.
      apply elem_of_app. right. cbn. apply list_elem_of_here.
  - split_and!; cbn; [done..|]. intros i [= <-]. by apply elem_of_ids.
  - split_and!; cbn; done.
  - rewrite Forall_forall in Hpages, Hticks.
    split_and!; cbn.
    + apply Forall_updateOverlay; [by apply Forall_forall|].
      apply edited_inRange; [done|]. by apply Hpages.
    + apply Forall_updateOverlay; [by apply Forall_forall|].
      eapply edited_square; [done|]. by apply Hticks.
    + intros i [= <-]. rewrite updateOverlay_ids, edited_id.
      by apply elem_of_ids.
  - by apply deleteOverlay_wellFormed.
  - by apply deleteOverlay_wellFormed.
Qed.



Lemma steps_wellFormed (st st' : CurrentUi.State) :
  wellFormed st → rtc CurrentUi.step st st' → wellFormed st'.
Proof.
  intros Hwf Hrun. induction Hrun as [|st0 st1 st2 Hstep _ IH]; [done|].
  apply IH. by eapply step_wellFormed.
Qed.

Lemma Current_extracted_square i viewport idx a :
  isTick (Overlay.type (Current.widgetOverlay i viewport idx a)) = true →
  Overlay.width (Current.widgetOverlay i viewport idx a)
    = Overlay.height (Current.widgetOverlay i viewport idx a).
Proof.
  unfold Current.widgetOverlay. cbn zeta. set (t := mapPdfJsFieldType _).
  destruct (String.eqb t "checkbox" || String.eqb t "radio") eqn:Htick;
    cbn [Overlay.type Overlay.width Overlay.height]; [done|].
  unfold isTick. by rewrite Htick.
Qed.

Lemma loaded_wellFormed (pdf flatPages : list PdfJsPage) :
  length flatPages = length pdf →
  wellFormed (CurrentUi.loaded flatPages
                (snd (Current.extractFieldsWithPdfJs pdf))).
Proof.
  intros Hlen. unfold Current.extractFieldsWithPdfJs.
  rewrite extractFieldsWithPdfJs_spec. cbn [snd].
  split_and!; cbn [CurrentUi.loaded CurrentUi.pages CurrentUi.overlays
                   CurrentUi.selectedId].
  - rewrite Hlen.
    apply overlaysOfWidgets_in_range, Current_pageIndex_template.
  - apply Forall_forall. intros ov Hov.
    apply elem_of_concat_imap in Hov as (k & page & _ & Hov).
    apply elem_of_lookup_imap in Hov as (idx & a & -> & _).
    apply Current_extracted_square.
  - intros i. destruct (overlaysOfWidgets _ _) as [|o l]; [done|].
    destruct (String.eqb _ _); [done|]. intros [= <-].
    cbn. apply list_elem_of_here.
Qed.

(** X19.  Throughout a session of the current revision, from the loading of
    a file through any sequence of user actions (adding, selecting,
    editing in the property sheet, dragging, resizing, deleting), provided
    the flattened copy shown has as many pages as the file: every overlay's
    page index selects one of the pages, every checkbox and radio overlay
    is a square, and the selection, if any, is the id of an overlay of the
    list. *)
Theorem session_wellFormed (pdf flatPages : list PdfJsPage)
    (st : CurrentUi.State) :
  length flatPages = length pdf →
  rtc CurrentUi.step
      (CurrentUi.loaded flatPages (snd (Current.extractFieldsWithPdfJs pdf)))
      st →
  wellFormed st.
Proof.
  intros Hlen Hrun. eapply steps_wellFormed; [|exact Hrun].
  by apply loaded_wellFormed.
Qed.

Lemma session_wellFormed_witness :
  wellFormed
    (CurrentUi.deleteOverlay "new_7"
       (CurrentUi.addField "checkbox" 7
          (CurrentUi.loaded [Sample.blankPage]
             (snd (Current.extractFieldsWithPdfJs [Sample.fixturePage]))))).
Proof.
  apply (session_wellFormed [Sample.fixturePage] [Sample.blankPage]).
  - reflexivity.
  - eapply rtc_l; [apply CurrentUi.step_addField|].
    eapply rtc_l; [|apply rtc_refl].
    apply (CurrentUi.step_keyDelete _ "new_7"). reflexivity.
Defined.



(* ===================================================================== *)
(** * Further properties: the flattener without the library's flatten *)
(* ===================================================================== *)




(* ===================================================================== *)
(** * Further properties: what the property sheet shows *)
(* ===================================================================== *)

Lemma find_updateOverlay (next : Overlay.t) (prev : list Overlay.t) :
  Overlay.id next ∈ ids prev →
  List.find (λ o, String.eqb (Overlay.id o) (Overlay.id next))
            (updateOverlay next prev) = Some next.
Proof.
  unfold ids, updateOverlay. induction prev as [|o prev IH]; cbn.
  - by intros ?%elem_of_nil.
  - intros Hin.
    destruct (String.eqb_spec (Overlay.id o) (Overlay.id next)) as [Heq|Hne].
    + by rewrite String.eqb_refl.
    + destruct (String.eqb_spec (Overlay.id o) (Overlay.id next)); [done|].
      apply IH. apply elem_of_cons in Hin as [Hin|Hin]; [congruence|done].
Qed.

Lemma find_absent (i : string) (l : list Overlay.t) :
  i ∉ ids l → List.find (λ o, String.eqb (Overlay.id o) i) l = None.
Proof.
  unfold ids. induction l as [|o l IH]; [done|]. cbn.
  rewrite not_elem_of_cons. intros [Hne Hl].
  destruct (String.eqb_spec (Overlay.id o) i); [congruence|]. by apply IH.
Qed.

Lemma find_app_absent (i : string) (l1 l2 : list Overlay.t) :
  i ∉ ids l1 →
  List.find (λ o, String.eqb (Overlay.id o) i) (l1 ++ l2)
    = List.find (λ o, String.eqb (Overlay.id o) i) l2.
Proof.
  unfold ids. induction l1 as [|o l1 IH]; [done|]. cbn.
  rewrite not_elem_of_cons. intros [Hne Hl].
  destruct (String.eqb_spec (Overlay.id o) i); [congruence|]. by apply IH.
Qed.

(** X22.  What the property sheet shows after each handler of the current
    revision: after an edit of an overlay of the list, the edited overlay;
    after a field is added (to a document with pages, at a time whose id is
    not yet in the list), the new overlay; after the selected overlay is
    deleted, nothing. *)
Theorem selectedField_after (st : CurrentUi.State) :
  (∀ next, Overlay.id next ∈ ids (CurrentUi.overlays st) →
     let st' := CurrentUi.updateOverlay next st in
     selectedField (CurrentUi.overlays st') (CurrentUi.selectedId st')
       = Some next) ∧
  (∀ type now, CurrentUi.pages st ≠ [] →
     "new_" +:+ decimal now ∉ ids (CurrentUi.overlays st) →
     let st' := CurrentUi.addField type now st in
     selectedField (CurrentUi.overlays st') (CurrentUi.selectedId st')
       = Some (CurrentUi.newOverlay type now)) ∧
  (∀ id, CurrentUi.selectedId st = Some id →
     let st' := CurrentUi.deleteOverlay id st in
     selectedField (CurrentUi.overlays st') (CurrentUi.selectedId st')
       = None).
Proof.
  split_and!.
  - intros next Hin. cbn. by apply find_updateOverlay.
  - intros type now Hpages Hfresh. cbn zeta. unfold CurrentUi.addField.
    destruct (CurrentUi.pages st) as [|p ps]; [done|]. cbn.
    rewrite find_app_absent by done. cbn. by rewrite String.eqb_refl.
  - intros id Hsel. cbn. rewrite Hsel. by rewrite String.eqb_refl.
Qed.

Lemma selectedField_after_witness :
  let st := CurrentUi.loaded [Sample.blankPage]
              [Sample.textOverlay; Sample.tick30x12] in
  let next := CurrentUi.edited (CurrentUi.SetName "Agree") Sample.tick30x12 in
  let st' := CurrentUi.updateOverlay next st in
  selectedField (CurrentUi.overlays st') (CurrentUi.selectedId st')
    = Some next.
Proof.
  destruct (selectedField_after
              (CurrentUi.loaded [Sample.blankPage]
                 [Sample.textOverlay; Sample.tick30x12])) as (Hedit & _ & _).
  apply (Hedit (CurrentUi.edited (CurrentUi.SetName "Agree")
                  Sample.tick30x12)).
  apply (bool_decide_unpack _). vm_compute. exact I.
Defined.

(** When two overlays share an id the sheet shows the older one, also
    right after the younger one was added. *)
Example sheet_shows_older_twin :
  let st := CurrentUi.addFields [("text", 5%nat); ("checkbox", 5%nat)]
              (CurrentUi.loaded [Sample.blankPage] []) in
  selectedField (CurrentUi.overlays st) (CurrentUi.selectedId st)
    = Some (CurrentUi.newOverlay "text" 5).
Proof. reflexivity. Qed.
